(** * Room controller of the Briscola server: a shallow embedding

    The development follows [Server/src/controllers/roomController.ts].
    Every handler of the controller is a function from the request (the
    [Authorization] header and the route parameters) and the content of
    the database to the HTTP response and the new content of the
    database.  The five tables the controller touches are lists of
    rows, in insertion order; a [DELETE] filters the list, an [UPDATE]
    maps over it, an [INSERT] appends to it.

    The SQL schema is not among the sources.  Tables carry the columns
    the statements of the controller name, no constraint rejects a
    statement, and a bind parameter is compared with a column by
    equality on the column's domain.  A statement therefore never
    fails, and the [catch] branches of the handlers, which answer 500,
    are not taken.

    The handlers that only read ([getRooms], [getRoom],
    [getRoomPlayers], [getPlayerInRoom], [getPlayerIsHost],
    [getRoomTableCards], [getPlayerHand]) leave the database as it is;
    they are functions from the request and the database to the reply.
    The token middleware, the start button of the room page and the
    socket relay, which live in other files, follow them. *)

From Stdlib Require Import ZArith String Ascii List Bool Arith Lia.
From Stdlib Require Finite.
From Stdlib Require Import Permutation.
Import ListNotations.

Local Open Scope string_scope.
Local Open Scope list_scope.

(** ** Tables *)

Definition UserId := Z.
Definition Number := Z.
Definition Seed := string.

Inductive Status := waiting | in_progress | ended.

Module Rooms.
(** [INSERT INTO rooms (code, turn_player_id)]; [status] is set by
    [startGame] and [endGame]. *)
Record row := mk {
  code : string;
  status : Status;
  turn_player_id : option UserId
}.
End Rooms.

Module Players.
Record row := mk {
  room_code : string;
  user_id : UserId;
  team : option Z;
  host : bool;
  in_game : bool
}.
End Players.

Module Deck.
(** [id] is the key [drawCard] deletes by. *)
Record row := mk {
  id : Z;
  room_code : string;
  number : Number;
  seed : Seed
}.
End Deck.

Module HandCards.
Record row := mk {
  room_code : string;
  number : Number;
  seed : Seed;
  player_id : UserId
}.
End HandCards.

Module TableCards.
Record row := mk {
  room_code : string;
  player_id : UserId;
  number : Number;
  seed : Seed
}.
End TableCards.

Record DB := mkDB {
  rooms : list Rooms.row;
  players : list Players.row;
  deck : list Deck.row;
  hand_cards : list HandCards.row;
  table_cards : list TableCards.row;
  (** the next value of the auto-increment key of [deck] *)
  next_deck_id : Z
}.

Definition empty_db : DB := mkDB [] [] [] [] [] 1.

(** Modelled from the spec: the default of column [status], which the
    absent schema declares.  The lifecycle of a room starts at
    "waiting". *)
Definition default_status : Status := waiting.

(** Modelled from the spec: the default of column [team], which the
    absent schema declares.  The creator, inserted without a team, "has
    no team". *)
Definition default_team : option Z := None.

(** Modelled from the spec: the default of column [in_game], which the
    absent schema declares.  [in_game] is a boolean that [startGame]
    sets for the members; before that it is cleared. *)
Definition default_in_game : bool := false.

(** ** Responses *)

Inductive Body :=
| Send (text : string)
| JsonCode (code : string)
| JsonCard (number : Number) (seed : Seed)
| JsonUser (id : UserId)
| SendCard (card : Deck.row).

Record Response := mkResponse { statusCode : nat; body : Body }.

(** [res.send(text)] answers with status 200, [res.status(n).send(text)]
    with status [n]. *)
Definition send (text : string) : Response := mkResponse 200 (Send text).
Definition status_send (n : nat) (text : string) : Response :=
  mkResponse n (Send text).
Definition json (b : Body) : Response := mkResponse 200 b.

(** ** The part of JavaScript the handlers rely on *)

(** [s.split(sep)] for a separator of one character. *)
Fixpoint split (sep : ascii) (s : string) : list string :=
  match s with
  | EmptyString => [EmptyString]
  | String c s' =>
      if Ascii.eqb c sep then EmptyString :: split sep s'
      else match split sep s' with
           | [] => [String c EmptyString]
           | w :: ws => String c w :: ws
           end
  end.

(** [req.headers.authorization?.split(" ")[1]], with [None] for
    [undefined]. *)
Definition bearer (authorization : option string) : option string :=
  match authorization with
  | None => None
  | Some h => nth_error (split " "%char h) 1
  end.

(** [!token] on a string or [undefined]: the empty string is falsy. *)
Definition token_missing (token : option string) : bool :=
  match token with
  | None => true
  | Some t => String.eqb t ""
  end.

(** [!user_id] on a number or [null]: zero is falsy. *)
Definition id_missing (user_id : option UserId) : bool :=
  match user_id with
  | None => true
  | Some n => Z.eqb n 0
  end.

(** Values compared by [===] in [passTurn]: a number, or an array,
    which is an object and is equal only to itself. *)
Inductive JsValue :=
| JsNumber (n : Z)
| JsArray (ref : nat).

Definition strict_equals (a b : JsValue) : bool :=
  match a, b with
  | JsNumber x, JsNumber y => Z.eqb x y
  | JsArray r, JsArray s => Nat.eqb r s
  | _, _ => false
  end.

(** ** Queries shared by the handlers *)

Definition players_of (code : string) (db : DB) : list Players.row :=
  filter (fun p => String.eqb (Players.room_code p) code) (players db).

Definition rooms_of (code : string) (db : DB) : list Rooms.row :=
  filter (fun r => String.eqb (Rooms.code r) code) (rooms db).

Definition deck_of (code : string) (db : DB) : list Deck.row :=
  filter (fun d => String.eqb (Deck.room_code d) code) (deck db).

Definition set_rooms (rs : list Rooms.row) (db : DB) : DB :=
  mkDB rs (players db) (deck db) (hand_cards db) (table_cards db)
       (next_deck_id db).

Definition set_players (ps : list Players.row) (db : DB) : DB :=
  mkDB (rooms db) ps (deck db) (hand_cards db) (table_cards db)
       (next_deck_id db).

Definition set_hand_cards (hs : list HandCards.row) (db : DB) : DB :=
  mkDB (rooms db) (players db) (deck db) hs (table_cards db)
       (next_deck_id db).

Definition set_table_cards (ts : list TableCards.row) (db : DB) : DB :=
  mkDB (rooms db) (players db) (deck db) (hand_cards db) ts
       (next_deck_id db).

(** [UPDATE rooms SET turn_player_id = ? WHERE code = ?] *)
Definition update_turn (next : option UserId) (code : string) (db : DB) : DB :=
  set_rooms
    (map (fun r =>
            if String.eqb (Rooms.code r) code
            then Rooms.mk (Rooms.code r) (Rooms.status r) next
            else r)
         (rooms db))
    db.

(** [UPDATE rooms SET status = ? WHERE code = ?] *)
Definition update_status (s : Status) (code : string) (db : DB) : DB :=
  set_rooms
    (map (fun r =>
            if String.eqb (Rooms.code r) code
            then Rooms.mk (Rooms.code r) s (Rooms.turn_player_id r)
            else r)
         (rooms db))
    db.

(** [rows[i].user_id === turn_player_id], the right-hand side being a
    nullable column. *)
Definition is_turn_of (u : UserId) (turn_player_id : option UserId) : bool :=
  match turn_player_id with
  | Some t => Z.eqb u t
  | None => false
  end.

(** The [for] loop of [passTurn] from index [i] on, [todo] being
    [rows[i..]]: the member after the first one that holds the turn,
    or [None] when the loop runs to its end. *)
Fixpoint scan_turn (rows : list UserId) (turn_player_id : option UserId)
         (i : nat) (todo : list UserId) : option (option UserId) :=
  match todo with
  | [] => None
  | u :: todo' =>
      if is_turn_of u turn_player_id
      then Some (nth_error rows ((i + 1) mod length rows))
      else scan_turn rows turn_player_id (S i) todo'
  end.

(** [nextPlayer] as [passTurn] writes it to the room. *)
Definition next_player (rows : list UserId) (turn_player_id : option UserId)
  : option UserId :=
  match scan_turn rows turn_player_id 0 rows with
  | Some next => next
  | None => nth_error rows 0
  end.

Section Controller.

(** [utils/getIdByToken] is not among the sources: the decoder of the
    bearer token is a parameter, [None] standing for a token that does
    not verify. *)
Variable getUserIdFromToken : string -> option UserId.

Inductive Auth :=
| NoToken
| BadToken
| Caller (user_id : UserId).

(** The prologue every authenticated handler starts with. *)
Definition authenticate (authorization : option string) : Auth :=
  let token := bearer authorization in
  if token_missing token then NoToken
  else match token with
       | None => NoToken
       | Some t =>
           let user_id := getUserIdFromToken t in
           if id_missing user_id then BadToken
           else match user_id with
                | Some u => Caller u
                | None => BadToken
                end
       end.

Definition no_token : Response :=
  status_send 401 "Authorization token is missing".
Definition bad_token : Response :=
  status_send 401 "Invalid or expired token".

(** [passTurn]: [rows] are the members of the room,
    [turnPlayerResult] the rooms with that code.  The guard
    [turnPlayerResult === player_id] has the array the query returned,
    the first object the request allocates, on its left and the id of
    the caller on its right. *)
Definition passTurn (authorization : option string) (code : string)
           (db : DB) : Response * DB :=
  match authenticate authorization with
  | NoToken => (no_token, db)
  | BadToken => (bad_token, db)
  | Caller player_id =>
      let rows := map Players.user_id (players_of code db) in
      if Nat.eqb (length rows) 0
      then (status_send 404 "Room not found", db)
      else
        let turnPlayerResult := rooms_of code db in
        if Nat.eqb (length turnPlayerResult) 0
        then (status_send 404 "Room not found", db)
        else if strict_equals (JsArray 0) (JsNumber player_id)
        then (status_send 403 "It's not your turn", db)
        else
          match turnPlayerResult with
          | [] => (status_send 500 "An error occurred", db)
          | r0 :: _ =>
              let turn_player_id := Rooms.turn_player_id r0 in
              (send "Turn passed",
               update_turn (next_player rows turn_player_id) code db)
          end
  end.


(** The ranks and the suits of the cards, which the sources do not
    name. *)
Variable ranks : list Number.
Variable suits : list Seed.

(** Modelled from the spec: [utils/generateDeck] is not among the
    sources.  The generator is the "deterministic cross-product of 10
    ranks x 4 suits", here of [ranks] and [suits]. *)
Definition generateDeck : list (Number * Seed) :=
  flat_map (fun s => map (fun n => (n, s)) ranks) suits.

(** Modelled from the spec: [utils/codeRoom] is not among the sources.
    A code is unique when no room carries it ("checked via a
    query-then-retry loop"). *)
Definition isCodeUnique (code : string) (db : DB) : bool :=
  Nat.eqb (length (rooms_of code db)) 0.

(** The [while (!unique)] loop of [createRoom]; [candidates] are the
    successive results of [generateCode()].  [None]: the loop is still
    running when the candidates are used up. *)
Fixpoint fresh_code (candidates : list string) (db : DB) : option string :=
  match candidates with
  | [] => None
  | code :: later =>
      if isCodeUnique code db then Some code else fresh_code later db
  end.

Definition createRoom (authorization : option string)
           (candidates : list string) (db : DB) : option (Response * DB) :=
  match authenticate authorization with
  | NoToken => Some (no_token, db)
  | BadToken => Some (bad_token, db)
  | Caller user_id =>
      match fresh_code candidates db with
      | None => None
      | Some code =>
          let db1 :=
            set_rooms
              (rooms db ++ [Rooms.mk code default_status (Some user_id)]) db in
          let db2 :=
            set_players
              (players db1 ++
               [Players.mk code user_id default_team true default_in_game])
              db1 in
          Some (json (JsonCode code), db2)
      end
  end.

(** [deleteRoom] looks at the presence of the token only. *)
Definition deleteRoom (authorization : option string) (code : string)
           (db : DB) : Response * DB :=
  let token := bearer authorization in
  if token_missing token then (no_token, db)
  else
    (send "Room deleted",
     set_rooms
       (filter (fun r => negb (String.eqb (Rooms.code r) code)) (rooms db))
       db).

Definition joinRoom (authorization : option string) (code : string)
           (db : DB) : Response * DB :=
  match authenticate authorization with
  | NoToken => (no_token, db)
  | BadToken => (bad_token, db)
  | Caller user_id =>
      let playerCount := length (players_of code db) in
      let team := if Nat.eqb (playerCount mod 2) 0 then 1%Z else 2%Z in
      (send "Player joined room",
       set_players
         (players db ++
          [Players.mk code user_id (Some team) false default_in_game])
         db)
  end.

(** [DELETE FROM players WHERE room_code = ? AND user_id = ?] *)
Definition delete_player (code : string) (user_id : UserId) (db : DB) : DB :=
  set_players
    (filter (fun p => negb (String.eqb (Players.room_code p) code
                            && Z.eqb (Players.user_id p) user_id))
            (players db))
    db.

Definition leaveRoom (authorization : option string) (code : string)
           (db : DB) : Response * DB :=
  match authenticate authorization with
  | NoToken => (no_token, db)
  | BadToken => (bad_token, db)
  | Caller user_id => (send "Player left room", delete_player code user_id db)
  end.

(** One round of the insertion loop of [startGame]. *)
Definition insert_deck (code : string) (card : Number * Seed) (db : DB) : DB :=
  mkDB (rooms db) (players db)
       (deck db ++ [Deck.mk (next_deck_id db) code (fst card) (snd card)])
       (hand_cards db) (table_cards db) (next_deck_id db + 1).

Definition startGame (authorization : option string) (code : string)
           (db : DB) : Response * DB :=
  match authenticate authorization with
  | NoToken => (no_token, db)
  | BadToken => (bad_token, db)
  | Caller user_id =>
      let deck := generateDeck in
      let db1 :=
        set_players
          (map (fun p =>
                  if String.eqb (Players.room_code p) code
                  then Players.mk (Players.room_code p) (Players.user_id p)
                                  (Players.team p) (Players.host p) true
                  else p)
               (players db))
          db in
      let db2 := update_status in_progress code db1 in
      let db3 := fold_left (fun d card => insert_deck code card d) deck db2 in
      (send ("Game started for room with CODE: " ++ code), db3)
  end.

(** The rooms selected by [WHERE id = ?] in [endGame].  No statement
    of the controller writes or reads a column [id] of [rooms]
    elsewhere, so which rows the comparison with the request parameter
    selects is a parameter. *)
Variable rooms_id_is : Rooms.row -> string -> bool.

(** [endGame] reads the route parameter [id] and has no
    authentication prologue. *)
Definition endGame (id : string) (db : DB) : Response * DB :=
  let members := map Players.user_id (players_of id db) in
  let db1 :=
    set_hand_cards
      (filter (fun h =>
                 negb (existsb (Z.eqb (HandCards.player_id h)) members))
              (hand_cards db))
      db in
  let db2 :=
    set_rooms
      (map (fun r =>
              if rooms_id_is r id
              then Rooms.mk (Rooms.code r) ended (Rooms.turn_player_id r)
              else r)
           (rooms db1))
      db1 in
  (send "Game ended successfully", db2).

(** [WHERE room_code = ? AND player_id = ? AND number = ? AND seed = ?] *)
Definition hand_matches (code : string) (player_id : UserId)
           (number : Number) (seed : Seed) (h : HandCards.row) : bool :=
  String.eqb (HandCards.room_code h) code
  && Z.eqb (HandCards.player_id h) player_id
  && Z.eqb (HandCards.number h) number
  && String.eqb (HandCards.seed h) seed.

Definition playCard (authorization : option string) (code : string)
           (number : Number) (seed : Seed) (db : DB) : Response * DB :=
  match authenticate authorization with
  | NoToken => (no_token, db)
  | BadToken => (bad_token, db)
  | Caller player_id =>
      let db1 :=
        set_table_cards
          (table_cards db ++ [TableCards.mk code player_id number seed]) db in
      let db2 :=
        set_hand_cards
          (filter (fun h => negb (hand_matches code player_id number seed h))
                  (hand_cards db1))
          db1 in
      (json (JsonCard number seed), db2)
  end.

(** [SELECT ... ORDER BY RAND() LIMIT 1]: at most one of [rows], the
    one the random order [r] puts first. *)
Definition order_by_rand_limit_1 {A : Type} (r : nat) (rows : list A)
  : list A :=
  match nth_error rows (r mod length rows) with
  | Some x => [x]
  | None => []
  end.

Definition drawCard (authorization : option string) (code : string)
           (r : nat) (db : DB) : Response * DB :=
  match authenticate authorization with
  | NoToken => (no_token, db)
  | BadToken => (bad_token, db)
  | Caller player_id =>
      let rows := order_by_rand_limit_1 r (deck_of code db) in
      match rows with
      | drawnCard :: _ =>
          let db1 :=
            set_hand_cards
              (hand_cards db ++
               [HandCards.mk code (Deck.number drawnCard)
                             (Deck.seed drawnCard) player_id])
              db in
          let db2 :=
            mkDB (rooms db1) (players db1)
                 (filter (fun d => negb (Z.eqb (Deck.id d) (Deck.id drawnCard)))
                         (deck db1))
                 (hand_cards db1) (table_cards db1) (next_deck_id db1) in
          (mkResponse 200 (SendCard drawnCard), db2)
      | [] => (status_send 404 "No cards left in the deck", db)
      end
  end.

Definition giveUp (authorization : option string) (code : string)
           (db : DB) : Response * DB :=
  match authenticate authorization with
  | NoToken => (no_token, db)
  | BadToken => (bad_token, db)
  | Caller player_id =>
      let db1 :=
        set_players
          (map (fun p =>
                  if String.eqb (Players.room_code p) code
                     && Z.eqb (Players.user_id p) player_id
                  then Players.mk (Players.room_code p) (Players.user_id p)
                                  (Players.team p) (Players.host p) false
                  else p)
               (players db))
          db in
      (json (JsonUser player_id), delete_player code player_id db1)
  end.

(** ** Requests and the states they lead to *)

Inductive Call :=
| CreateRoom (authorization : option string) (candidates : list string)
| DeleteRoom (authorization : option string) (code : string)
| JoinRoom (authorization : option string) (code : string)
| LeaveRoom (authorization : option string) (code : string)
| StartGame (authorization : option string) (code : string)
| EndGame (id : string)
| PlayCard (authorization : option string) (code : string)
           (number : Number) (seed : Seed)
| PassTurn (authorization : option string) (code : string)
| DrawCard (authorization : option string) (code : string) (r : nat)
| GiveUp (authorization : option string) (code : string).

Definition handle (c : Call) (db : DB) : option (Response * DB) :=
  match c with
  | CreateRoom a candidates => createRoom a candidates db
  | DeleteRoom a code => Some (deleteRoom a code db)
  | JoinRoom a code => Some (joinRoom a code db)
  | LeaveRoom a code => Some (leaveRoom a code db)
  | StartGame a code => Some (startGame a code db)
  | EndGame id => Some (endGame id db)
  | PlayCard a code number seed => Some (playCard a code number seed db)
  | PassTurn a code => Some (passTurn a code db)
  | DrawCard a code r => Some (drawCard a code r db)
  | GiveUp a code => Some (giveUp a code db)
  end.

(** The database after a sequence of requests, served one after the
    other; a request that never completes leaves it as it is. *)
Definition after (c : Call) (db : DB) : DB :=
  match handle c db with
  | Some (_, db') => db'
  | None => db
  end.

Definition run (calls : list Call) (db : DB) : DB :=
  fold_left (fun d c => after c d) calls db.

Definition reachable (db : DB) : Prop :=
  exists calls, db = run calls empty_db.

End Controller.

(** ** Observations on the database *)

(** The user ids of the members of a room, as [passTurn] reads them,
    and the turn pointers of the rooms with a code. *)
Definition members (code : string) (db : DB) : list UserId :=
  map Players.user_id (players_of code db).

Definition turns (code : string) (db : DB) : list (option UserId) :=
  map Rooms.turn_player_id (rooms_of code db).

(** A room row with its turn pointer replaced. *)
Definition with_turn (next : option UserId) (r : Rooms.row) : Rooms.row :=
  Rooms.mk (Rooms.code r) (Rooms.status r) next.

(** The rows the insertion loop of [startGame] appends for [cards],
    keyed from [k] on. *)
Fixpoint deck_rows (code : string) (k : Z) (cards : list (Number * Seed))
  : list Deck.row :=
  match cards with
  | [] => []
  | card :: later =>
      Deck.mk k code (fst card) (snd card) :: deck_rows code (k + 1) later
  end.

(** The card a deck row stands for. *)
Definition card_of (d : Deck.row) : Number * Seed :=
  (Deck.number d, Deck.seed d).

(** The key of [deck] identifies a row: the keys in the table are
    pairwise distinct and below the next key. *)
Definition deck_keyed (db : DB) : Prop :=
  NoDup (map Deck.id (deck db)) /\
  forall d, In d (deck db) -> (Deck.id d < next_deck_id db)%Z.

(** A sequence of joins to one room, one caller after the other. *)
Definition join_all (decode : string -> option UserId) (code : string)
           (joiners : list (option string)) (db : DB) : DB :=
  fold_left (fun d a => snd (joinRoom decode a code d)) joiners db.

(** The team of a joiner who finds [count] members in the room. *)
Definition team_for (count : nat) : Z := if Nat.even count then 1%Z else 2%Z.

(** The rows a sequence of joiners adds to a room that had [count]
    members before the first of them. *)
Fixpoint joined_rows (code : string) (count : nat) (ids : list UserId)
  : list Players.row :=
  match ids with
  | [] => []
  | u :: later =>
      Players.mk code u (Some (team_for count)) false default_in_game
      :: joined_rows code (S count) later
  end.





(** The rows [leaveRoom] and [giveUp] keep. *)
Definition stays (code : string) (user_id : UserId) (p : Players.row) : bool :=
  negb (String.eqb (Players.room_code p) code
        && Z.eqb (Players.user_id p) user_id).

(** Splits on the outcome of the prologue of a handler. *)
Ltac prologue decode a := destruct (authenticate decode a); simpl.

(** ** Instances used by the examples *)

(** A decoder for the examples: four tokens that verify, each for one
    user. *)
Definition demo_decode (token : string) : option UserId :=
  if String.eqb token "alice" then Some 1%Z
  else if String.eqb token "bob" then Some 2%Z
  else if String.eqb token "carol" then Some 3%Z
  else if String.eqb token "dave" then Some 4%Z
  else None.

Definition demo_ranks : list Number := [1; 2; 3; 4; 5; 6; 7; 8; 9; 10]%Z.
Definition demo_suits : list Seed := ["bastoni"; "coppe"; "denari"; "spade"].

(** For the examples, [WHERE id = ?] selects no room. *)
Definition demo_id_is (r : Rooms.row) (id : string) : bool := false.

Definition demo_run : list Call -> DB -> DB :=
  run demo_decode demo_ranks demo_suits demo_id_is.

Definition alice : option string := Some "Bearer alice".
Definition bob : option string := Some "Bearer bob".
Definition carol : option string := Some "Bearer carol".
Definition dave : option string := Some "Bearer dave".

(** Alice's room after bob joined it. *)
Definition two_players_calls : list Call :=
  [CreateRoom alice ["AB12"]; JoinRoom bob "AB12"].

Definition two_players : DB :=
  Eval vm_compute in demo_run two_players_calls empty_db.

(** A room in which alice is listed twice: she created it and joined it
    again after bob. *)
Definition twice_joined : DB :=
  Eval vm_compute in demo_run [JoinRoom alice "AB12"] two_players.

(** Alice's room after bob and carol joined it. *)
Definition three_players : DB :=
  Eval vm_compute in demo_run [JoinRoom carol "AB12"] two_players.

(** Alice's room with bob, started. *)
Definition started_game_calls : list Call :=
  two_players_calls ++ [StartGame alice "AB12"].

Definition started_game : DB :=
  Eval vm_compute in demo_run started_game_calls empty_db.

(** The started game after bob drew a card: with the random order 7 it
    is the 8 of "bastoni". *)
Definition bob_drew : DB :=
  Eval vm_compute in demo_run [DrawCard bob "AB12" 7] started_game.

(** Two rooms, alice's and carol's, with bob a member of both; carol's
    game is started and bob drew a card there. *)
Definition two_rooms : DB :=
  Eval vm_compute in
    demo_run [CreateRoom carol ["CD34"]; JoinRoom bob "CD34";
              StartGame carol "CD34"; DrawCard bob "CD34" 7]
             two_players.



(** ** The handlers that only read *)

(** What a reading handler passes to [res.json], or the text it
    sends. *)
Inductive Json :=
| JsonRooms (rows : list Rooms.row)
| JsonRoom (row : option Rooms.row)
| JsonPlayers (rows : list Players.row)
| JsonBool (b : bool)
| JsonTableCards (rows : list TableCards.row)
| JsonHandCards (rows : list HandCards.row)
| Plain (text : string).

Record Reply := mkReply { replyStatus : nat; replyBody : Json }.

Definition reply (j : Json) : Reply := mkReply 200 j.

Section Readers.

Variable getUserIdFromToken : string -> option UserId.

(** [SELECT * FROM rooms] *)
Definition getRooms (db : DB) : Reply := reply (JsonRooms (rooms db)).

(** [res.json(rows[0])]: [None] is the [undefined] of a room that does
    not exist. *)
Definition getRoom (code : string) (db : DB) : Reply :=
  reply (JsonRoom (nth_error (rooms_of code db) 0)).

Definition getRoomPlayers (code : string) (db : DB) : Reply :=
  reply (JsonPlayers (players_of code db)).

(** [SELECT * FROM players WHERE room_code = ? AND user_id = ?] *)
Definition player_rows (code : string) (user_id : UserId) (db : DB)
  : list Players.row :=
  filter (fun p => String.eqb (Players.room_code p) code
                   && Z.eqb (Players.user_id p) user_id)
         (players db).

(** [rows.length > 0] *)
Definition some_row {A : Type} (rows : list A) : bool :=
  Nat.ltb 0 (length rows).

Definition getPlayerInRoom (authorization : option string) (code : string)
           (db : DB) : Reply :=
  match authenticate getUserIdFromToken authorization with
  | NoToken => mkReply 401 (Plain "Authorization token is missing")
  | BadToken => mkReply 401 (Plain "Invalid or expired token")
  | Caller user_id => reply (JsonBool (some_row (player_rows code user_id db)))
  end.

(** [... AND host = 1] *)
Definition getPlayerIsHost (authorization : option string) (code : string)
           (db : DB) : Reply :=
  match authenticate getUserIdFromToken authorization with
  | NoToken => mkReply 401 (Plain "Authorization token is missing")
  | BadToken => mkReply 401 (Plain "Invalid or expired token")
  | Caller user_id =>
      reply (JsonBool
               (some_row (filter Players.host (player_rows code user_id db))))
  end.

(** [SELECT * FROM table_cards WHERE room_code = ?] *)
Definition table_of (code : string) (db : DB) : list TableCards.row :=
  filter (fun t => String.eqb (TableCards.room_code t) code) (table_cards db).

Definition getRoomTableCards (code : string) (db : DB) : Reply :=
  reply (JsonTableCards (table_of code db)).

(** [SELECT * FROM hand_cards WHERE room_code = ? AND player_id = ?];
    the handler takes the player from the route and reads no token. *)
Definition hand_of (code : string) (player_id : UserId) (db : DB)
  : list HandCards.row :=
  filter (fun h => String.eqb (HandCards.room_code h) code
                   && Z.eqb (HandCards.player_id h) player_id)
         (hand_cards db).

Definition getPlayerHand (code : string) (player_id : UserId) (db : DB)
  : Reply :=
  reply (JsonHandCards (hand_of code player_id db)).

End Readers.

(** ** The token middleware *)

(** [authenticateToken] either answers itself or hands the request on
    with [req.user] set. *)
Inductive Checked (User : Type) :=
| Answered (status : nat) (text : string)
| Next (user : User).

Arguments Answered {User} status text.
Arguments Next {User} user.

(** [jwt.verify] with the secret of the server is a parameter: [None]
    is a call back with [err] set.  The token is the whole header. *)
Definition authenticateToken {User : Type} (verify : string -> option User)
           (authorization : option string) : Checked User :=
  let token := authorization in
  if token_missing token
  then Answered 401 "Access denied. No token provided."
  else match token with
       | None => Answered 401 "Access denied. No token provided."
       | Some t =>
           match verify t with
           | None => Answered 403 "Invalid token."
           | Some user => Next user
           end
       end.

(** [s] holds no blank. *)
Fixpoint no_blank (s : string) : bool :=
  match s with
  | EmptyString => true
  | String c s' => negb (Ascii.eqb c " "%char) && no_blank s'
  end.

(** ** The start button of the room page *)

Module RoomPage.

(** What a click does, up to the request it sends; what follows the
    answer of the server (the countdown and the socket message) is not
    part of the model. *)
Inductive Effect :=
| PlaySound (name : string)
| Notify (message kind : string)
| PostStart.

(** [startGame]: [music] is [cookies === "true"], [players] the length
    of the list of players on the page. *)
Definition startGame (music : bool) (players : nat) : list Effect :=
  if negb (Nat.eqb players 2) && negb (Nat.eqb players 4)
  then (if music then [PlaySound "wrong"] else [])
       ++ [Notify "Devi avere almeno 2 giocatori per iniziare il gioco"
                  "danger"]
  else [PostStart].

Definition getButtonColor (players : nat) : string :=
  if Nat.eqb players 2 || Nat.eqb players 4 then "success" else "danger".

(** [handleClickStart] on the flag [canStart]: the new flag and what the
    click does. *)
Definition handleClickStart (music : bool) (players : nat) (canStart : bool)
  : bool * list Effect :=
  if canStart then (false, startGame music players)
  else (canStart,
        [Notify "This game is starting soon, please wait" "danger"]).

(** Successive clicks, each with the number of players the page shows
    at that moment. *)
Fixpoint clicks (music : bool) (shown : list nat) (canStart : bool)
  : bool * list Effect :=
  match shown with
  | [] => (canStart, [])
  | players :: later =>
      let (flag, now) := handleClickStart music players canStart in
      let (final, after_that) := clicks music later flag in
      (final, now ++ after_that)
  end.

End RoomPage.

(** ** The socket relay *)

Module Relay.

Definition SocketId := string.

(** The messages a client can send.  [player] is whatever the client
    passed, [None] for [undefined]. *)
Inductive Incoming :=
| JoinRoom (room : string) (player : option string)
| LeaveRoom (room : string) (player : option string)
| StartGame (room : string)
| JoinGame (game : string) (player : option string)
| PassTurn (game : string) (player : option string)
| PlayCard (game : string) (player : option string)
| EndGame (game : string)
| Unhandled (name : string).

Record Delivery := mkDelivery {
  recipient : SocketId;
  event : string;
  payload : option string
}.

(** The sockets that are connected and the rooms they joined.  A socket
    is also in the room named by its own id.  Connecting and
    disconnecting, which the handlers only log, are not part of the
    model: the sockets that are connected are given. *)
Record State := mkState {
  connected : list SocketId;
  joined : list (SocketId * string)
}.

Definition has_joined (st : State) (s : SocketId) (room : string) : bool :=
  existsb (fun j => String.eqb (fst j) s && String.eqb (snd j) room)
          (joined st).

Definition in_room (st : State) (room : string) (s : SocketId) : bool :=
  String.eqb s room || has_joined st s room.

(** [socket.join(room)] *)
Definition join (s : SocketId) (room : string) (st : State) : State :=
  if has_joined st s room then st
  else mkState (connected st) (joined st ++ [(s, room)]).

(** [socket.leave(room)] *)
Definition leave (s : SocketId) (room : string) (st : State) : State :=
  mkState (connected st)
          (filter (fun j => negb (String.eqb (fst j) s
                                  && String.eqb (snd j) room))
                  (joined st)).

(** [socket.to(room).emit(event, payload)]: to every connected socket in
    the room but the sender. *)
Definition to_room_emit (st : State) (sender : SocketId) (room event : string)
           (payload : option string) : list Delivery :=
  map (fun s => mkDelivery s event payload)
      (filter (fun s => in_room st room s && negb (String.eqb s sender))
              (connected st)).

(** The handlers [initializeWebSocket] registers on a socket. *)
Definition on (sender : SocketId) (m : Incoming) (st : State)
  : State * list Delivery :=
  match m with
  | JoinRoom room player =>
      let st1 := join sender room st in
      (st1, to_room_emit st1 sender room "playerJoined" player)
  | LeaveRoom room player =>
      let out := to_room_emit st sender room "playerLeft" player in
      (leave sender room st, out)
  | StartGame room => (st, to_room_emit st sender room "gameStarted" None)
  | JoinGame game player => (join sender game st, [])
  | PassTurn game player =>
      (st, to_room_emit st sender game "turnPassed" player)
  | PlayCard game player =>
      (st, to_room_emit st sender game "cardPlayed" player)
  | EndGame game => (st, to_room_emit st sender game "gameEnded" None)
  | Unhandled name => (st, [])
  end.

(** The room a message addresses. *)
Definition room_of (m : Incoming) : option string :=
  match m with
  | JoinRoom room _ | LeaveRoom room _ | StartGame room => Some room
  | JoinGame game _ | PassTurn game _ | PlayCard game _ | EndGame game =>
      Some game
  | Unhandled _ => None
  end.

End Relay.

(** ** Sequences of requests *)

(** Successive draws by one caller from the deck of one room, [picks]
    being the random orders. *)
Definition draw_all (decode : string -> option UserId)
           (authorization : option string) (code : string)
           (picks : list nat) (db : DB) : DB :=
  fold_left (fun d r => snd (drawCard decode authorization code r d)) picks db.

(** Successive passes of the turn in one room. *)
Fixpoint pass_n (decode : string -> option UserId)
         (authorization : option string) (code : string) (n : nat) (db : DB)
  : DB :=
  match n with
  | O => db
  | S n' =>
      pass_n decode authorization code n'
             (snd (passTurn decode authorization code db))
  end.

(** The card a hand row stands for. *)
Definition hand_card (h : HandCards.row) : Number * Seed :=
  (HandCards.number h, HandCards.seed h).

(** The [Authorization] header of a request; [endGame] reads none. *)
Definition authorization_of (c : Call) : option (option string) :=
  match c with
  | CreateRoom a _ | DeleteRoom a _ | JoinRoom a _ | LeaveRoom a _
  | StartGame a _ | PlayCard a _ _ _ | PassTurn a _ | DrawCard a _ _
  | GiveUp a _ => Some a
  | EndGame _ => None
  end.

(** Every row of the deck and of the hands holds a card that
    [generateDeck] yields. *)
Definition cards_generated (ranks : list Number) (suits : list Seed)
           (db : DB) : Prop :=
  (forall d, In d (deck db) -> In (card_of d) (generateDeck ranks suits)) /\
  (forall h, In h (hand_cards db) ->
             In (hand_card h) (generateDeck ranks suits)).

(** A relay for the examples: three sockets, two of them in room
    "AB12". *)
Definition demo_relay : Relay.State :=
  Relay.mkState ["s1"; "s2"; "s3"] [("s1", "AB12"); ("s2", "AB12")].

(** * Properties *)

(** ** Authentication prologue *)

Lemma authenticate_caller decode authorization user_id :
  authenticate decode authorization = Caller user_id ->
  exists token,
    bearer authorization = Some token /\ token <> "" /\
    decode token = Some user_id /\ user_id <> 0%Z.
Proof.
  unfold authenticate.
  destruct (bearer authorization) as [token|]; simpl; [|discriminate].
  destruct (String.eqb_spec token ""); [discriminate|].
  destruct (decode token) as [u|] eqn:Hd; simpl; [|discriminate].
  destruct (Z.eqb_spec u 0); [discriminate|].
  intros [= <-]. exists token. repeat split; assumption.
Qed.

Lemma authenticate_demo_alice : authenticate demo_decode alice = Caller 1%Z.
Proof. reflexivity. Qed.

(** ** The turn scan *)

Lemma is_turn_of_true u t : is_turn_of u t = true <-> t = Some u.
Proof.
  destruct t as [t|]; simpl.
  - rewrite Z.eqb_eq. split; [intros ->; reflexivity | intros [= ->]; reflexivity].
  - split; discriminate.
Qed.

Lemma is_turn_of_false u t : is_turn_of u t = false <-> t <> Some u.
Proof.
  rewrite <- is_turn_of_true. destruct (is_turn_of u t); split; congruence.
Qed.

(** The loop returns at the first position that holds the turn. *)
Lemma scan_turn_first rows p todo : forall i k,
  nth_error todo k = Some p ->
  (forall j, j < k -> nth_error todo j <> Some p) ->
  scan_turn rows (Some p) i todo
  = Some (nth_error rows ((i + k + 1) mod length rows)).
Proof.
  induction todo as [|u todo IH]; intros i k Hk Hfirst.
  - destruct k; discriminate.
  - destruct k as [|k]; simpl in *.
    + injection Hk as ->. rewrite Z.eqb_refl.
      do 2 f_equal. f_equal. lia.
    + assert (Hu : u <> p).
      { intros ->. apply (Hfirst 0); [lia | reflexivity]. }
      apply Z.eqb_neq in Hu. rewrite Hu.
      rewrite (IH (S i) k Hk).
      * do 2 f_equal. f_equal. lia.
      * intros j Hj. apply (Hfirst (S j)). lia.
Qed.

Lemma scan_turn_absent rows t todo : forall i,
  (forall u, In u todo -> t <> Some u) ->
  scan_turn rows t i todo = None.
Proof.
  induction todo as [|u todo IH]; intros i Habs; simpl; [reflexivity|].
  assert (Hu : is_turn_of u t = false).
  { apply is_turn_of_false, Habs. left. reflexivity. }
  rewrite Hu. apply IH. intros v Hv. apply Habs. right. exact Hv.
Qed.

Lemma next_player_first rows p i :
  nth_error rows i = Some p ->
  (forall j, j < i -> nth_error rows j <> Some p) ->
  next_player rows (Some p) = nth_error rows ((i + 1) mod length rows).
Proof.
  intros Hi Hfirst. unfold next_player.
  rewrite (scan_turn_first rows p rows 0 i Hi Hfirst). reflexivity.
Qed.

Lemma next_player_absent rows t :
  (forall u, In u rows -> t <> Some u) ->
  next_player rows t = nth_error rows 0.
Proof.
  intros Habs. unfold next_player. rewrite scan_turn_absent; auto.
Qed.

(** ** [passTurn] *)

Lemma rooms_of_update_turn_same next code db :
  rooms_of code (update_turn next code db)
  = map (with_turn next) (rooms_of code db).
Proof.
  unfold rooms_of, update_turn. simpl.
  induction (rooms db) as [|r rs IH]; simpl; [reflexivity|].
  destruct (String.eqb (Rooms.code r) code) eqn:Hr; simpl; rewrite Hr.
  - unfold with_turn at 1. f_equal. exact IH.
  - exact IH.
Qed.

Lemma turns_update_turn next code db :
  turns code (update_turn next code db)
  = map (fun _ => next) (rooms_of code db).
Proof.
  unfold turns. rewrite rooms_of_update_turn_same, map_map. reflexivity.
Qed.

Lemma members_update_turn next code code' db :
  members code' (update_turn next code db) = members code' db.
Proof. reflexivity. Qed.

(** An authenticated pass on a room that exists and has members answers
    "Turn passed" and stores the member the scan selects. *)
Lemma passTurn_passes decode authorization code db player_id r0 rs :
  authenticate decode authorization = Caller player_id ->
  rooms_of code db = r0 :: rs ->
  members code db <> [] ->
  passTurn decode authorization code db
  = (send "Turn passed",
     update_turn (next_player (members code db) (Rooms.turn_player_id r0))
                 code db).
Proof.
  intros Hauth Hrooms Hmem. unfold passTurn. rewrite Hauth.
  fold (members code db). rewrite Hrooms.
  destruct (members code db) as [|m ms]; [congruence|]. reflexivity.
Qed.

(** One pass from a holder whose first position among the members is
    [i]: the rooms with the code now point at position [(i+1) mod n],
    and the members are as before. *)
Lemma passTurn_step decode authorization code db player_id r0 rs i p :
  authenticate decode authorization = Caller player_id ->
  rooms_of code db = r0 :: rs ->
  Rooms.turn_player_id r0 = Some p ->
  nth_error (members code db) i = Some p ->
  (forall j, j < i -> nth_error (members code db) j <> Some p) ->
  let next := nth_error (members code db)
                        ((i + 1) mod length (members code db)) in
  let db' := snd (passTurn decode authorization code db) in
  fst (passTurn decode authorization code db) = send "Turn passed" /\
  rooms_of code db' = with_turn next r0 :: map (with_turn next) rs /\
  members code db' = members code db.
Proof.
  intros Hauth Hrooms Hturn Hi Hfirst next db'.
  assert (Hmem : members code db <> []).
  { intros E. rewrite E in Hi. destruct i; discriminate. }
  subst db'. rewrite (passTurn_passes _ _ _ _ _ _ _ Hauth Hrooms Hmem).
  simpl. rewrite Hturn, (next_player_first _ _ _ Hi Hfirst).
  rewrite rooms_of_update_turn_same, Hrooms. auto.
Qed.

(** C1 (as stated) fails where the turn holder is listed more than once
    among the members: in the room alice created and joined again after
    bob the stored members are 1, 2, 1 and alice holds the turn; she is
    at position 2, but the pass moves the turn to the member after
    position 0, which is bob, and not to position (2+1) mod 3. *)
Lemma passTurn_later_position_counterexample :
  let rows := members "AB12" twice_joined in
  let db' := snd (passTurn demo_decode alice "AB12" twice_joined) in
  rows = [1; 2; 1]%Z /\
  turns "AB12" twice_joined = [Some 1%Z] /\
  fst (passTurn demo_decode alice "AB12" twice_joined) = send "Turn passed" /\
  turns "AB12" db' = [Some 2%Z] /\
  ~ (forall i p,
       nth_error rows i = Some p ->
       turns "AB12" twice_joined = [Some p] ->
       turns "AB12" db' = [nth_error rows ((i + 1) mod length rows)]).
Proof.
  repeat split; try reflexivity.
  intros H. specialize (H 2 1%Z eq_refl eq_refl). discriminate H.
Qed.

(** C1 (amended): an authenticated pass on a room that exists and whose
    stored members are p0..p(n-1), n >= 1, answers "Turn passed" and
    rewrites the turn pointer of the room: when the stored holder is a
    member and [i] is its first position in the list, the new holder is
    p((i+1) mod n); when the stored holder is not among the members, it
    is p0.  With three distinct members A, B, C and the turn at A,
    successive passes give B, C, A. *)
Theorem passTurn_cyclic_rotation decode authorization code db player_id r0 rs :
  authenticate decode authorization = Caller player_id ->
  rooms_of code db = r0 :: rs ->
  members code db <> [] ->
  let rows := members code db in
  let pass := fun d => snd (passTurn decode authorization code d) in
  fst (passTurn decode authorization code db) = send "Turn passed" /\
  (forall i p,
      Rooms.turn_player_id r0 = Some p ->
      nth_error rows i = Some p ->
      (forall j, j < i -> nth_error rows j <> Some p) ->
      turns code (pass db)
      = map (fun _ => nth_error rows ((i + 1) mod length rows)) (r0 :: rs)) /\
  ((forall u, In u rows -> Rooms.turn_player_id r0 <> Some u) ->
      turns code (pass db) = map (fun _ => nth_error rows 0) (r0 :: rs)) /\
  (forall A B C,
      rows = [A; B; C] -> A <> B -> A <> C -> B <> C ->
      Rooms.turn_player_id r0 = Some A ->
      turns code (pass db) = map (fun _ => Some B) (r0 :: rs) /\
      turns code (pass (pass db)) = map (fun _ => Some C) (r0 :: rs) /\
      turns code (pass (pass (pass db))) = map (fun _ => Some A) (r0 :: rs)).
Proof.
  intros Hauth Hrooms Hmem rows pass.
  assert (Hpass : passTurn decode authorization code db
                  = (send "Turn passed",
                     update_turn (next_player rows (Rooms.turn_player_id r0))
                                 code db))
    by (apply (passTurn_passes _ _ _ _ player_id r0 rs); assumption).
  split; [rewrite Hpass; reflexivity|].
  split; [|split].
  - intros i p Hturn Hi Hfirst. subst pass. cbv beta. rewrite Hpass. simpl.
    rewrite turns_update_turn, Hrooms.
    rewrite Hturn, (next_player_first _ _ _ Hi Hfirst). reflexivity.
  - intros Habs. subst pass. cbv beta. rewrite Hpass. simpl.
    rewrite turns_update_turn, Hrooms.
    rewrite (next_player_absent _ _ Habs). reflexivity.
  - intros A B C Hrows HAB HAC HBC Hturn. subst rows.
    assert (first0 : forall j, j < 0 -> nth_error [A; B; C] j <> Some A)
      by (intros j Hj; inversion Hj).
    assert (first1 : forall j, j < 1 -> nth_error [A; B; C] j <> Some B).
    { intros [|j] Hj; [simpl; congruence | lia]. }
    assert (first2 : forall j, j < 2 -> nth_error [A; B; C] j <> Some C).
    { intros [|[|j]] Hj; [simpl; congruence | simpl; congruence | lia]. }
    destruct (passTurn_step decode authorization code db player_id r0 rs 0 A
                Hauth Hrooms Hturn) as (_ & Hr1 & Hm1);
      try (rewrite Hrows; assumption || reflexivity).
    rewrite Hrows in Hr1. simpl in Hr1. fold (pass db) in Hr1, Hm1.
    rewrite Hrows in Hm1.
    destruct (passTurn_step decode authorization code (pass db) player_id
                _ _ 1 B Hauth Hr1 eq_refl) as (_ & Hr2 & Hm2);
      try (rewrite Hm1; assumption || reflexivity).
    rewrite Hm1 in Hr2, Hm2. simpl in Hr2. fold (pass (pass db)) in Hr2, Hm2.
    destruct (passTurn_step decode authorization code (pass (pass db))
                player_id _ _ 2 C Hauth Hr2 eq_refl) as (_ & Hr3 & _);
      try (rewrite Hm2; assumption || reflexivity).
    rewrite Hm2 in Hr3. simpl in Hr3. fold (pass (pass (pass db))) in Hr3.
    unfold turns. rewrite Hr1, Hr2, Hr3. simpl.
    rewrite !map_map. simpl. auto.
Qed.

(** The theorem at alice's room with bob and carol: the hypotheses hold
    there, and the turn goes from alice to bob. *)
Lemma passTurn_cyclic_rotation_witness :
  authenticate demo_decode alice = Caller 1%Z /\
  rooms_of "AB12" three_players = [Rooms.mk "AB12" waiting (Some 1%Z)] /\
  members "AB12" three_players = [1; 2; 3]%Z /\
  turns "AB12" (snd (passTurn demo_decode alice "AB12" three_players))
  = [Some 2%Z].
Proof.
  split; [reflexivity|]. split; [reflexivity|]. split; [reflexivity|].
  refine (proj1 (proj2 (passTurn_cyclic_rotation demo_decode alice "AB12"
                          three_players 1%Z _ [] eq_refl eq_refl _))
                0 1%Z eq_refl eq_refl _).
  - discriminate.
  - intros j Hj. inversion Hj.
Defined.

(** The guard of [passTurn] compares an array with a number. *)
Lemma guard_never_fires ref player_id :
  strict_equals (JsArray ref) (JsNumber player_id) = false.
Proof. reflexivity. Qed.

(** C2: the guard of passTurn is without effect.  No request is
    answered 403; the outcome of an authenticated pass does not depend
    on who the caller is; and on a room that exists and has members
    every authenticated caller, holder of the turn or not, gets "Turn
    passed" and the turn pointer of the room is rewritten with the
    member the scan selects.  In particular a caller who is not the
    stored holder moves the turn from the holder, at its first position
    [i] among the members, to the member at position (i+1) mod n. *)
Theorem passTurn_guard_is_noop decode code db :
  (forall authorization,
      statusCode (fst (passTurn decode authorization code db)) <> 403) /\
  (forall a1 a2 u1 u2,
      authenticate decode a1 = Caller u1 ->
      authenticate decode a2 = Caller u2 ->
      passTurn decode a1 code db = passTurn decode a2 code db) /\
  (forall a u r0 rs,
      authenticate decode a = Caller u ->
      rooms_of code db = r0 :: rs ->
      members code db <> [] ->
      fst (passTurn decode a code db) = send "Turn passed" /\
      turns code (snd (passTurn decode a code db))
      = map (fun _ => next_player (members code db)
                                  (Rooms.turn_player_id r0))
            (r0 :: rs)) /\
  (forall a u r0 rs i p,
      authenticate decode a = Caller u ->
      rooms_of code db = r0 :: rs ->
      Rooms.turn_player_id r0 = Some p ->
      p <> u ->
      nth_error (members code db) i = Some p ->
      (forall j, j < i -> nth_error (members code db) j <> Some p) ->
      fst (passTurn decode a code db) = send "Turn passed" /\
      turns code (snd (passTurn decode a code db))
      = map (fun _ => nth_error (members code db)
                                ((i + 1) mod length (members code db)))
            (r0 :: rs)).
Proof.
  split; [|split; [|split]].
  - intros authorization. unfold passTurn.
    destruct (authenticate decode authorization) as [| |player_id];
      simpl; try discriminate.
    destruct (Nat.eqb _ 0); simpl; [discriminate|].
    destruct (rooms_of code db) as [|r0 rs]; simpl; discriminate.
  - intros a1 a2 u1 u2 H1 H2. unfold passTurn. rewrite H1, H2.
    rewrite !guard_never_fires. reflexivity.
  - intros a u r0 rs Hauth Hrooms Hmem.
    rewrite (passTurn_passes _ _ _ _ u r0 rs Hauth Hrooms Hmem). simpl.
    split; [reflexivity|]. rewrite turns_update_turn, Hrooms. reflexivity.
  - intros a u r0 rs i p Hauth Hrooms Hturn _ Hi Hfirst.
    assert (Hmem : members code db <> []).
    { intros E. rewrite E in Hi. destruct i; discriminate. }
    rewrite (passTurn_passes _ _ _ _ u r0 rs Hauth Hrooms Hmem). simpl.
    split; [reflexivity|].
    rewrite turns_update_turn, Hrooms, Hturn.
    rewrite (next_player_first _ _ _ Hi Hfirst). reflexivity.
Qed.

(** The theorem at a caller who does not hold the turn: in alice's room
    with bob and carol the turn is alice's; carol's request is answered
    "Turn passed" and moves the turn from alice to bob. *)
Lemma passTurn_guard_is_noop_witness :
  authenticate demo_decode carol = Caller 3%Z /\
  members "AB12" three_players = [1; 2; 3]%Z /\
  turns "AB12" three_players = [Some 1%Z] /\
  fst (passTurn demo_decode carol "AB12" three_players)
  = send "Turn passed" /\
  turns "AB12" (snd (passTurn demo_decode carol "AB12" three_players))
  = [Some 2%Z].
Proof.
  split; [reflexivity|]. split; [reflexivity|]. split; [reflexivity|].
  refine (proj2 (proj2 (proj2 (passTurn_guard_is_noop demo_decode "AB12"
                                 three_players)))
                carol 3%Z (Rooms.mk "AB12" waiting (Some 1%Z)) [] 0 1%Z
                eq_refl eq_refl eq_refl _ eq_refl _).
  - discriminate.
  - intros j Hj. inversion Hj.
Defined.

(** ** The deck and its key *)

Lemma fold_insert_deck code cards : forall db,
  let db' := fold_left (fun d card => insert_deck code card d) cards db in
  rooms db' = rooms db /\ players db' = players db /\
  hand_cards db' = hand_cards db /\ table_cards db' = table_cards db /\
  deck db' = deck db ++ deck_rows code (next_deck_id db) cards /\
  next_deck_id db' = (next_deck_id db + Z.of_nat (length cards))%Z.
Proof.
  induction cards as [|card cards IH]; intros db; simpl.
  - rewrite app_nil_r, Z.add_0_r. repeat split; reflexivity.
  - destruct (IH (insert_deck code card db)) as (Hr & Hp & Hh & Ht & Hd & Hn).
    simpl in *. rewrite Hr, Hp, Hh, Ht, Hd, Hn, <- app_assoc. simpl.
    repeat split; try reflexivity. lia.
Qed.

Lemma deck_rows_ids code cards : forall k d,
  In d (deck_rows code k cards) ->
  (k <= Deck.id d < k + Z.of_nat (length cards))%Z.
Proof.
  induction cards as [|card cards IH]; intros k d Hd; simpl in *; [tauto|].
  destruct Hd as [<-|Hd]; simpl; [lia|].
  apply IH in Hd. lia.
Qed.

Lemma deck_rows_NoDup code cards : forall k,
  NoDup (map Deck.id (deck_rows code k cards)).
Proof.
  induction cards as [|card cards IH]; intros k; simpl; constructor.
  - rewrite in_map_iff. intros (d & Hid & Hd).
    apply deck_rows_ids in Hd. lia.
  - apply IH.
Qed.

Lemma deck_keyed_empty : deck_keyed empty_db.
Proof. split; [constructor | intros d []]. Qed.

Lemma deck_keyed_same db db' :
  deck db' = deck db -> next_deck_id db' = next_deck_id db ->
  deck_keyed db -> deck_keyed db'.
Proof. unfold deck_keyed. intros -> ->. auto. Qed.

Lemma deck_keyed_filter (f : Deck.row -> bool) db db' :
  deck db' = filter f (deck db) -> next_deck_id db' = next_deck_id db ->
  deck_keyed db -> deck_keyed db'.
Proof.
  unfold deck_keyed. intros -> -> [Hnd Hlt]. split.
  - induction (deck db) as [|d ds IH]; simpl; [constructor|].
    simpl in Hnd. inversion Hnd as [|x xs Hx Hxs]; subst.
    assert (Hds : forall d0, In d0 ds -> (Deck.id d0 < next_deck_id db)%Z)
      by (intros d0 H0; apply Hlt; right; exact H0).
    destruct (f d); simpl; [constructor|]; auto.
    rewrite in_map_iff. intros (d' & Hid & Hd').
    apply filter_In in Hd'. apply Hx. rewrite in_map_iff.
    exists d'. tauto.
  - intros d Hd. apply filter_In in Hd. apply Hlt. tauto.
Qed.

Lemma deck_keyed_startGame decode ranks suits authorization code db :
  deck_keyed db ->
  deck_keyed (snd (startGame decode ranks suits authorization code db)).
Proof.
  intros [Hnd Hlt]. unfold startGame.
  destruct (authenticate decode authorization); simpl; try (split; assumption).
  match goal with
  | |- deck_keyed (fold_left _ ?cards ?d) =>
      destruct (fold_insert_deck code cards d) as (_ & _ & _ & _ & Hd & Hn)
  end.
  simpl in Hd, Hn. unfold deck_keyed. rewrite Hd, Hn. split.
  - rewrite map_app. apply NoDup_app; [assumption | apply deck_rows_NoDup |].
    intros k Hk Hk'. rewrite in_map_iff in Hk, Hk'.
    destruct Hk as (d & <- & Hin). destruct Hk' as (d' & Hid & Hin').
    apply Hlt in Hin. apply deck_rows_ids in Hin'. lia.
  - intros d Hin. apply in_app_iff in Hin. destruct Hin as [Hin|Hin].
    + apply Hlt in Hin. lia.
    + apply deck_rows_ids in Hin. lia.
Qed.

Lemma deck_keyed_after decode ranks suits id_is c db :
  deck_keyed db -> deck_keyed (after decode ranks suits id_is c db).
Proof.
  intros Hk. unfold after, handle.
  destruct c as [a candidates | a code | a code | a code | a code | id
                | a code number seed | a code | a code r | a code]; simpl.
  - unfold createRoom. prologue decode a; try assumption.
    destruct (fresh_code candidates db); simpl; assumption.
  - unfold deleteRoom. destruct (token_missing _); simpl; assumption.
  - unfold joinRoom. prologue decode a; assumption.
  - unfold leaveRoom. prologue decode a; assumption.
  - destruct (startGame decode ranks suits a code db) as [resp db'] eqn:E.
    change db' with (snd (resp, db')). rewrite <- E.
    apply deck_keyed_startGame, Hk.
  - assumption.
  - unfold playCard. prologue decode a; assumption.
  - unfold passTurn. prologue decode a; try assumption.
    destruct (Nat.eqb _ 0); simpl; try assumption.
    destruct (rooms_of code db); simpl; assumption.
  - unfold drawCard. prologue decode a; try assumption.
    destruct (order_by_rand_limit_1 r (deck_of code db)); simpl;
      try assumption.
    eapply deck_keyed_filter; [| |exact Hk]; reflexivity.
  - unfold giveUp. prologue decode a; assumption.
Qed.

Lemma reachable_deck_keyed decode ranks suits id_is db :
  reachable decode ranks suits id_is db -> deck_keyed db.
Proof.
  intros [calls ->]. unfold run.
  generalize deck_keyed_empty. generalize empty_db.
  induction calls as [|c calls IH]; intros db Hk; simpl; [exact Hk|].
  apply IH, deck_keyed_after, Hk.
Qed.

(** ** [drawCard] *)

Lemma order_by_rand_limit_1_nonempty {A : Type} r (rows : list A) :
  rows <> [] ->
  exists x, order_by_rand_limit_1 r rows = [x] /\ In x rows.
Proof.
  intros Hne. unfold order_by_rand_limit_1.
  assert (Hlt : r mod length rows < length rows).
  { apply Nat.mod_upper_bound. destruct rows; [congruence|discriminate]. }
  destruct (nth_error rows (r mod length rows)) as [x|] eqn:E.
  - exists x. split; [reflexivity|]. eapply nth_error_In, E.
  - apply nth_error_None in E. lia.
Qed.

Lemma filter_out_key card l1 l2 :
  NoDup (map Deck.id (l1 ++ card :: l2)) ->
  filter (fun d => negb (Z.eqb (Deck.id d) (Deck.id card))) (l1 ++ card :: l2)
  = l1 ++ l2.
Proof.
  intros Hnd. rewrite map_app in Hnd. simpl in Hnd.
  apply NoDup_remove in Hnd. destruct Hnd as [_ Hnotin].
  assert (Hkeep : forall l,
             (forall d, In d l -> Deck.id d <> Deck.id card) ->
             filter (fun d => negb (Z.eqb (Deck.id d) (Deck.id card))) l = l).
  { induction l as [|d l IH]; intros Hl; simpl; [reflexivity|].
    assert (Hd : Z.eqb (Deck.id d) (Deck.id card) = false)
      by (apply Z.eqb_neq, Hl; left; reflexivity).
    rewrite Hd. simpl. f_equal. apply IH. intros d' Hd'. apply Hl.
    right. exact Hd'. }
  rewrite filter_app. simpl. rewrite Z.eqb_refl. simpl.
  rewrite !Hkeep; [reflexivity| |].
  - intros d Hd E. apply Hnotin, in_or_app. right.
    rewrite <- E. apply in_map, Hd.
  - intros d Hd E. apply Hnotin, in_or_app. left.
    rewrite <- E. apply in_map, Hd.
Qed.

(** C3: drawCard by an authenticated caller, in any state the server can
    be in.  When the deck of the room is not empty, one of its rows is
    sent back, a hand row with its number and seed is appended for the
    caller, and that row alone leaves the deck, whose size, for the
    table and for the room, goes down by one.  When the deck of the room
    is empty the answer is 404 "No cards left in the deck" and the
    database, the hand cards included, is as before. *)
Theorem drawCard_postcondition
        decode ranks suits id_is authorization code r db player_id :
  reachable decode ranks suits id_is db ->
  authenticate decode authorization = Caller player_id ->
  let out := drawCard decode authorization code r db in
  (deck_of code db <> [] ->
   exists card before later,
     In card (deck_of code db) /\
     fst out = mkResponse 200 (SendCard card) /\
     hand_cards (snd out)
     = hand_cards db ++
       [HandCards.mk code (Deck.number card) (Deck.seed card) player_id] /\
     deck db = before ++ card :: later /\
     deck (snd out) = before ++ later /\
     length (deck_of code (snd out)) + 1 = length (deck_of code db)) /\
  (deck_of code db = [] ->
   fst out = status_send 404 "No cards left in the deck" /\ snd out = db).
Proof.
  intros Hreach Hauth out. subst out. unfold drawCard. rewrite Hauth.
  split.
  - intros Hne.
    destruct (order_by_rand_limit_1_nonempty r _ Hne) as (card & -> & Hin).
    assert (Hin' := Hin). unfold deck_of in Hin'. apply filter_In in Hin'.
    destruct Hin' as [Hdeck Hcode].
    destruct (in_split _ _ Hdeck) as (before & later & Hsplit).
    exists card, before, later. simpl.
    apply reachable_deck_keyed in Hreach. destruct Hreach as [Hnd _].
    rewrite Hsplit in Hnd.
    repeat split; try assumption.
    + rewrite Hsplit. apply filter_out_key, Hnd.
    + unfold deck_of. simpl. rewrite Hsplit at 1.
      rewrite (filter_out_key _ _ _ Hnd), Hsplit, !filter_app. simpl.
      rewrite Hcode. rewrite !length_app. simpl. lia.
  - intros ->. unfold order_by_rand_limit_1. simpl.
    destruct r; split; reflexivity.
Qed.

(** The theorem in a started game: the state is reachable, the deck of
    the room is not empty, and bob's draw leaves 39 of its 40 rows. *)
Lemma drawCard_postcondition_witness :
  reachable demo_decode demo_ranks demo_suits demo_id_is started_game /\
  authenticate demo_decode bob = Caller 2%Z /\
  length (deck_of "AB12" started_game) = 40 /\
  length (deck_of "AB12" (snd (drawCard demo_decode bob "AB12" 7 started_game)))
  + 1 = length (deck_of "AB12" started_game).
Proof.
  assert (Hreach : reachable demo_decode demo_ranks demo_suits demo_id_is
                             started_game)
    by (exists started_game_calls; vm_compute; reflexivity).
  split; [exact Hreach|]. split; [vm_compute; reflexivity|].
  split; [vm_compute; reflexivity|].
  destruct (proj1 (drawCard_postcondition demo_decode demo_ranks demo_suits
                     demo_id_is bob "AB12" 7 started_game 2%Z
                     Hreach eq_refl))
    as (card & before & later & _ & _ & _ & _ & _ & Hlen).
  - vm_compute. discriminate.
  - exact Hlen.
Defined.

(** ** [createRoom] and [joinRoom] *)

Lemma even_mod_2 n : Nat.eqb (n mod 2) 0 = Nat.even n.
Proof.
  destruct (Nat.even n) eqn:E.
  - apply Nat.even_spec in E. destruct E as [k ->].
    rewrite Nat.mul_comm, Nat.Div0.mod_mul. reflexivity.
  - apply Nat.eqb_neq. intros H.
    apply Nat.Div0.mod_divides in H. destruct H as [k ->].
    rewrite Nat.even_mul in E. discriminate.
Qed.

Lemma players_of_app code db rows :
  filter (fun p => String.eqb (Players.room_code p) code) (players db ++ rows)
  = players_of code db
    ++ filter (fun p => String.eqb (Players.room_code p) code) rows.
Proof. apply filter_app. Qed.

Lemma players_of_insert code db row :
  Players.room_code row = code ->
  players_of code (set_players (players db ++ [row]) db)
  = players_of code db ++ [row].
Proof.
  intros Hrow. unfold players_of at 1. simpl. rewrite players_of_app. simpl.
  rewrite Hrow, String.eqb_refl. reflexivity.
Qed.

Lemma joinRoom_caller decode authorization code db user_id :
  authenticate decode authorization = Caller user_id ->
  joinRoom decode authorization code db
  = (send "Player joined room",
     set_players
       (players db ++
        [Players.mk code user_id
                    (Some (team_for (length (players_of code db))))
                    false default_in_game])
       db).
Proof.
  intros Hauth. unfold joinRoom, team_for. rewrite Hauth, even_mod_2.
  reflexivity.
Qed.

Lemma join_all_members decode code joiners ids :
  Forall2 (fun a u => authenticate decode a = Caller u) joiners ids ->
  forall db,
    players_of code (join_all decode code joiners db)
    = players_of code db
      ++ joined_rows code (length (players_of code db)) ids.
Proof.
  induction 1 as [|a u joiners ids Hau _ IH]; intros db; simpl.
  - rewrite app_nil_r. reflexivity.
  - unfold join_all in *. simpl. rewrite IH.
    rewrite (joinRoom_caller _ _ _ _ _ Hau). simpl.
    rewrite players_of_insert by reflexivity.
    rewrite length_app, <- app_assoc. simpl.
    rewrite Nat.add_1_r. reflexivity.
Qed.

Lemma createRoom_caller decode authorization candidates db user_id code :
  authenticate decode authorization = Caller user_id ->
  fresh_code candidates db = Some code ->
  createRoom decode authorization candidates db
  = Some (json (JsonCode code),
          mkDB (rooms db ++ [Rooms.mk code default_status (Some user_id)])
               (players db ++
                [Players.mk code user_id default_team true default_in_game])
               (deck db) (hand_cards db) (table_cards db) (next_deck_id db)).
Proof.
  intros Hauth Hcode. unfold createRoom. rewrite Hauth, Hcode. reflexivity.
Qed.

(** The loop of [createRoom] ends as soon as the generator yields a code
    no room carries. *)
Lemma fresh_code_found candidates db code :
  In code candidates -> isCodeUnique code db = true ->
  exists code', fresh_code candidates db = Some code'.
Proof.
  induction candidates as [|c cs IH]; intros Hin Huniq; [destruct Hin|].
  simpl. destruct (isCodeUnique c db) eqn:E; [eauto|].
  destruct Hin as [->|Hin]; [congruence|]. apply IH; assumption.
Qed.

(** [createRoom] answers with a code once the generator has yielded one
    that no room carries. *)
Lemma createRoom_returns decode authorization candidates db user_id code :
  authenticate decode authorization = Caller user_id ->
  In code candidates -> isCodeUnique code db = true ->
  exists code' db1,
    createRoom decode authorization candidates db
    = Some (json (JsonCode code'), db1) /\
    isCodeUnique code' db = true.
Proof.
  intros Hauth Hin Huniq.
  destruct (fresh_code_found candidates db code Hin Huniq) as [code' Hcode].
  rewrite (createRoom_caller _ _ _ _ _ _ Hauth Hcode).
  eexists _, _. split; [reflexivity|].
  clear Hin. induction candidates as [|c cs IH]; [discriminate|].
  simpl in Hcode. destruct (isCodeUnique c db) eqn:E.
  - injection Hcode as <-. exact E.
  - apply IH, Hcode.
Qed.

Lemma joined_rows_nth code ids : forall count k p,
  nth_error (joined_rows code count ids) k = Some p ->
  Players.team p = Some (team_for (count + k)) /\ Players.host p = false /\
  nth_error ids k = Some (Players.user_id p).
Proof.
  induction ids as [|u ids IH]; intros count k p Hk; simpl in *.
  - destruct k; discriminate.
  - destruct k as [|k]; simpl in *.
    + injection Hk as <-. simpl. rewrite Nat.add_0_r. auto.
    + apply IH in Hk. rewrite Nat.add_succ_r. exact Hk.
Qed.

(** C4: joinRoom gives team 1 to a caller who finds an even number of
    members in the room and team 2 to one who finds an odd number.  In a
    fresh room, whose only member is the creator, host and without a
    team, the joiners therefore get teams 2, 1, 2, 1, ... in the order
    of their joins: team 1 for the second joiner, and alternating from
    there. *)
Theorem joinRoom_team_alternation decode code :
  (forall authorization user_id db,
      authenticate decode authorization = Caller user_id ->
      players (snd (joinRoom decode authorization code db))
      = players db ++
        [Players.mk code user_id
           (Some (if Nat.even (length (players_of code db)) then 1 else 2)%Z)
           false default_in_game]) /\
  (forall authorization candidates creator db db1 joiners ids,
      players_of code db = [] ->
      authenticate decode authorization = Caller creator ->
      createRoom decode authorization candidates db
      = Some (json (JsonCode code), db1) ->
      Forall2 (fun a u => authenticate decode a = Caller u) joiners ids ->
      let members_rows := players_of code (join_all decode code joiners db1) in
      members_rows
      = Players.mk code creator None true default_in_game
        :: joined_rows code 1 ids /\
      forall k p,
        nth_error members_rows (S k) = Some p ->
        nth_error ids k = Some (Players.user_id p) /\
        Players.team p = Some (if Nat.even k then 2 else 1)%Z).
Proof.
  split.
  - intros authorization user_id db Hauth.
    rewrite (joinRoom_caller _ _ _ _ _ Hauth). reflexivity.
  - intros authorization candidates creator db db1 joiners ids
           Hfresh Hauth Hcreate Hjoin members_rows.
    assert (Hrows : members_rows
                    = Players.mk code creator None true default_in_game
                      :: joined_rows code 1 ids).
    { subst members_rows. rewrite (join_all_members _ _ _ _ Hjoin).
      unfold createRoom in Hcreate. rewrite Hauth in Hcreate.
      destruct (fresh_code candidates db) as [c|]; [|discriminate].
      injection Hcreate as -> <-.
      unfold players_of at 1 2. simpl. rewrite players_of_app, Hfresh.
      simpl. rewrite String.eqb_refl. reflexivity. }
    split; [exact Hrows|].
    intros k p Hk. rewrite Hrows in Hk. simpl in Hk.
    apply joined_rows_nth in Hk. destruct Hk as (Hteam & _ & Hid).
    split; [exact Hid|]. rewrite Hteam. unfold team_for.
    change (1 + k) with (S k). rewrite Nat.even_succ, <- Nat.negb_even.
    destruct (Nat.even k); reflexivity.
Qed.

(** The theorem on a fresh room of alice joined by bob, carol and dave:
    the joiners get teams 2, 1, 2. *)
Lemma joinRoom_team_alternation_witness :
  map Players.team
      (players_of "AB12"
         (join_all demo_decode "AB12" [bob; carol; dave]
            (demo_run [CreateRoom alice ["AB12"]] empty_db)))
  = [None; Some 2%Z; Some 1%Z; Some 2%Z].
Proof.
  assert (Hjoin : Forall2 (fun a u => authenticate demo_decode a = Caller u)
                          [bob; carol; dave] [2; 3; 4]%Z)
    by (repeat constructor).
  pose proof (proj2 (joinRoom_team_alternation demo_decode "AB12")
                alice ["AB12"] 1%Z empty_db _ [bob; carol; dave]
                [2; 3; 4]%Z eq_refl eq_refl eq_refl Hjoin) as [Hrows _].
  exact (f_equal (map Players.team) Hrows).
Defined.

(** ** [playCard] *)

Lemma hand_matches_iff code player_id number seed h :
  hand_matches code player_id number seed h = true
  <-> h = HandCards.mk code number seed player_id.
Proof.
  unfold hand_matches. rewrite !andb_true_iff, !String.eqb_eq, !Z.eqb_eq.
  destruct h as [c n s p]; simpl. split.
  - intros [[[-> ->] ->] ->]. reflexivity.
  - intros [= -> -> -> ->]. auto.
Qed.

Lemma playCard_caller decode authorization code number seed db player_id :
  authenticate decode authorization = Caller player_id ->
  playCard decode authorization code number seed db
  = (json (JsonCard number seed),
     mkDB (rooms db) (players db) (deck db)
          (filter (fun h => negb (hand_matches code player_id number seed h))
                  (hand_cards db))
          (table_cards db ++ [TableCards.mk code player_id number seed])
          (next_deck_id db)).
Proof. intros Hauth. unfold playCard. rewrite Hauth. reflexivity. Qed.

(** C5: when an authenticated player plays a card that is in their hand
    for the room, the call answers with the card, the table gets one new
    row with the card attributed to the player, and the hand cards are
    those of before without that card: the player's hand for the room no
    longer contains it. *)
Theorem playCard_moves_card
        decode authorization code number seed db player_id :
  authenticate decode authorization = Caller player_id ->
  In (HandCards.mk code number seed player_id) (hand_cards db) ->
  let out := playCard decode authorization code number seed db in
  fst out = json (JsonCard number seed) /\
  table_cards (snd out)
  = table_cards db ++ [TableCards.mk code player_id number seed] /\
  In (TableCards.mk code player_id number seed) (table_cards (snd out)) /\
  ~ In (HandCards.mk code number seed player_id) (hand_cards (snd out)) /\
  (forall h, In h (hand_cards (snd out))
             <-> In h (hand_cards db)
                 /\ h <> HandCards.mk code number seed player_id).
Proof.
  intros Hauth Hheld out. subst out.
  rewrite (playCard_caller _ _ _ _ _ _ _ Hauth). simpl.
  assert (Hhand : forall h,
             In h (filter (fun h => negb (hand_matches code player_id
                                                       number seed h))
                          (hand_cards db))
             <-> In h (hand_cards db)
                 /\ h <> HandCards.mk code number seed player_id).
  { intros h. rewrite filter_In, negb_true_iff, <- hand_matches_iff.
    destruct (hand_matches code player_id number seed h);
      intuition congruence. }
  split; [reflexivity|]. split; [reflexivity|]. split; [|split].
  - apply in_or_app. right. left. reflexivity.
  - intros Hin. apply Hhand in Hin. destruct Hin as [_ Hne]. congruence.
  - exact Hhand.
Qed.

(** The theorem on the card bob drew: he holds the 8 of "bastoni", and
    after he plays it the card is on the table and no hand row is left. *)
Lemma playCard_moves_card_witness :
  authenticate demo_decode bob = Caller 2%Z /\
  In (HandCards.mk "AB12" 8%Z "bastoni" 2%Z) (hand_cards bob_drew) /\
  In (TableCards.mk "AB12" 2%Z 8%Z "bastoni")
     (table_cards
        (snd (playCard demo_decode bob "AB12" 8%Z "bastoni" bob_drew))) /\
  ~ In (HandCards.mk "AB12" 8%Z "bastoni" 2%Z)
       (hand_cards
          (snd (playCard demo_decode bob "AB12" 8%Z "bastoni" bob_drew))).
Proof.
  assert (Hheld : In (HandCards.mk "AB12" 8%Z "bastoni" 2%Z)
                     (hand_cards bob_drew))
    by (vm_compute; left; reflexivity).
  split; [vm_compute; reflexivity|]. split; [exact Hheld|].
  pose proof (playCard_moves_card demo_decode bob "AB12" 8%Z "bastoni"
                bob_drew 2%Z eq_refl Hheld)
    as (_ & _ & Htable & Hhand & _).
  split; [exact Htable | exact Hhand].
Defined.

(** C6: playCard does not look at the hand.  When the authenticated
    caller holds no such card in the room, the call still answers with
    the card, the table still gets a row for that card and that player,
    and the hand cards are unchanged, the delete having matched
    nothing. *)
Theorem playCard_without_possession
        decode authorization code number seed db player_id :
  authenticate decode authorization = Caller player_id ->
  ~ In (HandCards.mk code number seed player_id) (hand_cards db) ->
  let out := playCard decode authorization code number seed db in
  fst out = json (JsonCard number seed) /\
  table_cards (snd out)
  = table_cards db ++ [TableCards.mk code player_id number seed] /\
  hand_cards (snd out) = hand_cards db.
Proof.
  intros Hauth Hnot out. subst out.
  rewrite (playCard_caller _ _ _ _ _ _ _ Hauth). simpl.
  split; [reflexivity|]. split; [reflexivity|].
  induction (hand_cards db) as [|h hs IH]; simpl; [reflexivity|].
  destruct (hand_matches code player_id number seed h) eqn:E; simpl.
  - apply hand_matches_iff in E. exfalso. apply Hnot. left. auto.
  - f_equal. apply IH. intros Hin. apply Hnot. right. exact Hin.
Qed.

(** The theorem in the started game, where nobody has drawn: bob plays
    the 7 of "coppe" he never held. *)
Lemma playCard_without_possession_witness :
  authenticate demo_decode bob = Caller 2%Z /\
  hand_cards started_game = [] /\
  table_cards (snd (playCard demo_decode bob "AB12" 7%Z "coppe" started_game))
  = [TableCards.mk "AB12" 2%Z 7%Z "coppe"].
Proof.
  assert (Hnone : ~ In (HandCards.mk "AB12" 7%Z "coppe" 2%Z)
                       (hand_cards started_game))
    by (vm_compute; intros H; exact H).
  split; [vm_compute; reflexivity|]. split; [vm_compute; reflexivity|].
  pose proof (playCard_without_possession demo_decode bob "AB12"
                7%Z "coppe" started_game 2%Z eq_refl Hnone)
    as (_ & Htable & _).
  rewrite Htable. vm_compute. reflexivity.
Defined.

(** ** [generateDeck] and [startGame] *)

Lemma generateDeck_length ranks suits :
  length (generateDeck ranks suits) = length suits * length ranks.
Proof.
  unfold generateDeck. induction suits as [|s suits IH]; simpl; [reflexivity|].
  rewrite length_app, length_map, IH. reflexivity.
Qed.

Lemma generateDeck_In ranks suits n s :
  In (n, s) (generateDeck ranks suits) <-> In n ranks /\ In s suits.
Proof.
  unfold generateDeck. rewrite in_flat_map. split.
  - intros (s' & Hs' & Hin). apply in_map_iff in Hin.
    destruct Hin as (n' & [= -> ->] & Hn'). auto.
  - intros [Hn Hs]. exists s. split; [exact Hs|].
    apply in_map_iff. exists n. auto.
Qed.

Lemma generateDeck_NoDup ranks suits :
  NoDup ranks -> NoDup suits -> NoDup (generateDeck ranks suits).
Proof.
  intros Hranks Hsuits. unfold generateDeck.
  induction Hsuits as [|s suits Hs _ IH]; simpl; [constructor|].
  apply NoDup_app.
  - apply Finite.Injective_map_NoDup; [|exact Hranks].
    intros a b [= ->]. reflexivity.
  - exact IH.
  - intros [n s'] Hin Hin'. apply in_map_iff in Hin.
    destruct Hin as (n' & Heq & _). injection Heq as Hn Hs'. subst n' s'.
    change (In (n, s) (generateDeck ranks suits)) in Hin'.
    apply generateDeck_In in Hin'. tauto.
Qed.

Lemma deck_rows_cards code cards : forall k,
  map card_of (deck_rows code k cards) = cards.
Proof.
  induction cards as [|[n s] cards IH]; intros k; simpl; [reflexivity|].
  unfold card_of at 1. simpl. f_equal. apply IH.
Qed.

Lemma deck_rows_of code cards : forall k,
  filter (fun d => String.eqb (Deck.room_code d) code) (deck_rows code k cards)
  = deck_rows code k cards.
Proof.
  induction cards as [|card cards IH]; intros k; simpl; [reflexivity|].
  rewrite String.eqb_refl, IH. reflexivity.
Qed.

Lemma startGame_caller decode ranks suits authorization code db user_id :
  authenticate decode authorization = Caller user_id ->
  let out := startGame decode ranks suits authorization code db in
  fst out = send ("Game started for room with CODE: " ++ code) /\
  rooms (snd out) = rooms (update_status in_progress code db) /\
  players (snd out)
  = map (fun p =>
           if String.eqb (Players.room_code p) code
           then Players.mk (Players.room_code p) (Players.user_id p)
                           (Players.team p) (Players.host p) true
           else p)
        (players db) /\
  deck (snd out)
  = deck db ++ deck_rows code (next_deck_id db) (generateDeck ranks suits) /\
  hand_cards (snd out) = hand_cards db /\
  table_cards (snd out) = table_cards db.
Proof.
  intros Hauth out. subst out. unfold startGame. rewrite Hauth. simpl.
  match goal with
  | |- context [fold_left _ ?cards ?d] =>
      destruct (fold_insert_deck code cards d) as (Hr & Hp & Hh & Ht & Hd & _)
  end.
  rewrite Hr, Hp, Hh, Ht, Hd. repeat split; reflexivity.
Qed.

(** C7 (as stated) fails for a room that has been started before:
    startGame has no guard on the status of the room or on its deck, so
    a second start appends forty more rows.  After the second start of
    alice's room its deck has 80 rows, each card twice. *)
Lemma startGame_twice_counterexample :
  let out := startGame demo_decode demo_ranks demo_suits alice "AB12"
                       started_game in
  rooms_of "AB12" started_game = [Rooms.mk "AB12" in_progress (Some 1%Z)] /\
  fst out = send "Game started for room with CODE: AB12" /\
  length (deck_of "AB12" (snd out)) = 80 /\
  length (deck_of "AB12" (snd out)) <> 40 /\
  ~ NoDup (map card_of (deck_of "AB12" (snd out))).
Proof.
  split; [vm_compute; reflexivity|]. split; [vm_compute; reflexivity|].
  split; [vm_compute; reflexivity|]. split; [vm_compute; discriminate|].
  intros Hnd. vm_compute in Hnd.
  inversion Hnd as [|x xs Hnotin _]. apply Hnotin.
  do 39 right. left. reflexivity.
Qed.

(** C7 (amended): startGame by an authenticated caller, the generator
    enumerating 10 distinct ranks and 4 distinct suits.  The call
    answers "Game started ...", every member of the room is marked
    in_game, the members being who they were, every room with the code
    has status in_progress, and the cards of the generator, which are
    the 40 pairs of a rank and a suit, each once, are appended to the
    deck of the room.  When the deck of the room held no row before the
    call, it holds exactly those 40 cards after it. *)
Theorem startGame_postcondition
        decode ranks suits authorization code db user_id :
  authenticate decode authorization = Caller user_id ->
  length ranks = 10 -> length suits = 4 -> NoDup ranks -> NoDup suits ->
  let out := startGame decode ranks suits authorization code db in
  fst out = send ("Game started for room with CODE: " ++ code) /\
  members code (snd out) = members code db /\
  (forall p, In p (players_of code (snd out)) -> Players.in_game p = true) /\
  map Rooms.status (rooms_of code (snd out))
  = map (fun _ => in_progress) (rooms_of code db) /\
  map card_of (deck_of code (snd out))
  = map card_of (deck_of code db) ++ generateDeck ranks suits /\
  length (generateDeck ranks suits) = 40 /\
  NoDup (generateDeck ranks suits) /\
  (forall n s, In (n, s) (generateDeck ranks suits)
               <-> In n ranks /\ In s suits) /\
  (deck_of code db = [] ->
   length (deck_of code (snd out)) = 40 /\
   NoDup (map card_of (deck_of code (snd out)))).
Proof.
  intros Hauth Hranks Hsuits Hndr Hnds out.
  destruct (startGame_caller decode ranks suits authorization code db user_id
              Hauth) as (Hresp & Hrooms & Hplayers & Hdeck & _ & _).
  fold out in Hresp, Hrooms, Hplayers, Hdeck.
  assert (Hcards : map card_of (deck_of code (snd out))
                   = map card_of (deck_of code db) ++ generateDeck ranks suits).
  { unfold deck_of. rewrite Hdeck, filter_app, deck_rows_of, map_app.
    rewrite deck_rows_cards. reflexivity. }
  assert (Hlen : length (generateDeck ranks suits) = 40)
    by (rewrite generateDeck_length, Hranks, Hsuits; reflexivity).
  assert (Hnd : NoDup (generateDeck ranks suits))
    by (apply generateDeck_NoDup; assumption).
  split; [exact Hresp|]. split; [|split; [|split]].
  - unfold members, players_of. rewrite Hplayers.
    generalize (players db). clear. intros ps.
    induction ps as [|p ps IH]; simpl; [reflexivity|].
    destruct (String.eqb (Players.room_code p) code) eqn:E; simpl; rewrite E;
      simpl; rewrite IH; reflexivity.
  - intros p. unfold players_of. rewrite Hplayers, filter_In, in_map_iff.
    intros [(q & Hq & _) Hcode]. subst p.
    destruct (String.eqb (Players.room_code q) code) eqn:E; [reflexivity|].
    congruence.
  - unfold rooms_of. rewrite Hrooms. unfold update_status. simpl.
    generalize (rooms db). clear. intros rs.
    induction rs as [|r rs IH]; simpl; [reflexivity|].
    destruct (String.eqb (Rooms.code r) code) eqn:E; simpl; rewrite E;
      simpl; rewrite IH; reflexivity.
  - split; [exact Hcards|]. split; [exact Hlen|]. split; [exact Hnd|].
    split; [intros n s; apply generateDeck_In|].
    intros Hempty. rewrite Hempty in Hcards. simpl in Hcards.
    split.
    + rewrite <- Hlen, <- Hcards, length_map. reflexivity.
    + rewrite Hcards. exact Hnd.
Qed.

(** The theorem on the first start of alice's room with bob, with ten
    ranks and the four suits of the examples: 40 rows in the deck. *)
Lemma startGame_postcondition_witness :
  authenticate demo_decode alice = Caller 1%Z /\
  length demo_ranks = 10 /\ length demo_suits = 4 /\
  deck_of "AB12" two_players = [] /\
  length
    (deck_of "AB12"
       (snd (startGame demo_decode demo_ranks demo_suits alice "AB12"
               two_players)))
  = 40.
Proof.
  split; [vm_compute; reflexivity|]. split; [reflexivity|].
  split; [reflexivity|]. split; [vm_compute; reflexivity|].
  assert (Hr : NoDup demo_ranks).
  { unfold demo_ranks. repeat constructor; simpl; intuition discriminate. }
  assert (Hs : NoDup demo_suits).
  { unfold demo_suits. repeat constructor; simpl; intuition discriminate. }
  pose proof (startGame_postcondition demo_decode demo_ranks demo_suits alice
                "AB12" two_players 1%Z eq_refl eq_refl eq_refl Hr Hs)
    as (_ & _ & _ & _ & _ & _ & _ & _ & Hfresh).
  exact (proj1 (Hfresh eq_refl)).
Defined.

(** ** [endGame] *)

(** What [endGame] writes: the hand rows of the members of the room are
    deleted whatever room the rows are for, and the status changes on
    the rooms [WHERE id = ?] selects. *)
Lemma endGame_effect id_is id db :
  let out := endGame id_is id db in
  fst out = send "Game ended successfully" /\
  hand_cards (snd out)
  = filter (fun h => negb (existsb (Z.eqb (HandCards.player_id h))
                                   (members id db)))
           (hand_cards db) /\
  rooms (snd out)
  = map (fun r =>
           if id_is r id
           then Rooms.mk (Rooms.code r) ended (Rooms.turn_player_id r)
           else r)
        (rooms db) /\
  players (snd out) = players db /\
  deck (snd out) = deck db /\
  table_cards (snd out) = table_cards db.
Proof. repeat split; reflexivity. Qed.

(** C8 (the code at the failing input): bob is a member of alice's room
    "AB12" and of carol's room "CD34", and holds the 8 of "bastoni" in
    carol's game.  Ending the game of "AB12" deletes that hand row of
    room "CD34", because the delete selects hand rows by player and not
    by room; and the status of room "AB12" becomes "ended" only if the
    comparison on the column [id] selects its row, whatever its code. *)
Theorem endGame_deletes_hands_of_other_rooms id_is :
  let out := endGame id_is "AB12" two_rooms in
  members "AB12" two_rooms = [1; 2]%Z /\
  members "CD34" two_rooms = [3; 2]%Z /\
  hand_cards two_rooms = [HandCards.mk "CD34" 8%Z "bastoni" 2%Z] /\
  fst out = send "Game ended successfully" /\
  hand_cards (snd out) = [] /\
  map Rooms.status (rooms_of "AB12" (snd out))
  = [if id_is (Rooms.mk "AB12" waiting (Some 1%Z)) "AB12"
     then ended else waiting].
Proof.
  split; [vm_compute; reflexivity|]. split; [vm_compute; reflexivity|].
  split; [vm_compute; reflexivity|]. split; [reflexivity|].
  split; [vm_compute; reflexivity|].
  cbv.
  repeat match goal with
         | |- context [id_is ?r ?id] => destruct (id_is r id)
         end; reflexivity.
Qed.

(** ** Hosts *)



(** [giveUp] clears [in_game] on the very rows it then deletes, so it
    leaves the players that [leaveRoom] leaves. *)
Lemma players_leave decode authorization code db u :
  authenticate decode authorization = Caller u ->
  players (snd (leaveRoom decode authorization code db))
  = filter (stays code u) (players db) /\
  players (snd (giveUp decode authorization code db))
  = filter (stays code u) (players db).
Proof.
  intros Hauth. unfold leaveRoom, giveUp. rewrite Hauth. simpl.
  split; [reflexivity|].
  unfold stays.
  induction (players db) as [|p ps IH]; simpl; [reflexivity|].
  destruct (String.eqb (Players.room_code p) code
            && Z.eqb (Players.user_id p) u) eqn:E; simpl; rewrite E; simpl;
    [|f_equal]; exact IH.
Qed.










(** ** [deleteRoom] *)

(** A header "Bearer <token>" whose token is not empty and does not
    start with a blank carries a token for [deleteRoom]. *)
Lemma bearer_present c token :
  Ascii.eqb c " "%char = false ->
  token_missing (bearer (Some ("Bearer " ++ String c token)%string)) = false.
Proof.
  intros Hc. unfold bearer. simpl. rewrite Hc.
  destruct (split " "%char token) as [|w ws]; reflexivity.
Qed.

(** C10: deleteRoom answers 401 exactly when the Authorization header
    carries no token, and then changes nothing.  With any token, which
    it never decodes, it answers "Room deleted" and removes the rooms
    with the code and nothing else; the outcome is the same for any two
    requests that carry a token, whoever sends them, and a header
    "Bearer <token>" with a token that is not empty and does not start
    with a blank carries one. *)
Theorem deleteRoom_presence_only authorization code db :
  let out := deleteRoom authorization code db in
  (statusCode (fst out) = 401
   <-> token_missing (bearer authorization) = true) /\
  (token_missing (bearer authorization) = true ->
   out = (status_send 401 "Authorization token is missing", db)) /\
  (token_missing (bearer authorization) = false ->
   fst out = send "Room deleted" /\
   rooms (snd out)
   = filter (fun r => negb (String.eqb (Rooms.code r) code)) (rooms db) /\
   rooms_of code (snd out) = [] /\
   players (snd out) = players db /\ deck (snd out) = deck db /\
   hand_cards (snd out) = hand_cards db /\
   table_cards (snd out) = table_cards db) /\
  (forall authorization',
      token_missing (bearer authorization) = false ->
      token_missing (bearer authorization') = false ->
      deleteRoom authorization' code db = out) /\
  (forall c token,
      Ascii.eqb c " "%char = false ->
      token_missing (bearer (Some ("Bearer " ++ String c token)%string)) = false).
Proof.
  intros out. subst out. unfold deleteRoom.
  split; [|split; [|split; [|split]]].
  - destruct (token_missing (bearer authorization)); simpl; split;
      congruence || discriminate || reflexivity.
  - intros ->. reflexivity.
  - intros ->. simpl. repeat split.
    unfold rooms_of. simpl.
    induction (rooms db) as [|r rs IH]; simpl; [reflexivity|].
    destruct (String.eqb (Rooms.code r) code) eqn:E; simpl; [exact IH|].
    rewrite E. exact IH.
  - intros authorization' -> ->. reflexivity.
  - apply bearer_present.
Qed.

(** The theorem on a stranger's request: dave is in no room, his header
    carries a string that is no token of the examples, and room "AB12"
    of alice and bob is deleted. *)
Lemma deleteRoom_presence_only_witness :
  token_missing (bearer (Some "Bearer garbage")) = false /\
  demo_decode "garbage" = None /\
  rooms_of "AB12" two_players <> [] /\
  fst (deleteRoom (Some "Bearer garbage") "AB12" two_players)
  = send "Room deleted" /\
  rooms (snd (deleteRoom (Some "Bearer garbage") "AB12" two_players)) = [].
Proof.
  split; [reflexivity|]. split; [reflexivity|]. split; [discriminate|].
  pose proof (proj1 (proj2 (proj2 (deleteRoom_presence_only
                                     (Some "Bearer garbage") "AB12"
                                     two_players)))
                eq_refl) as (Hresp & Hrooms & _).
  split; [exact Hresp|]. rewrite Hrooms. reflexivity.
Defined.

(** * Further properties of the controller and of its surroundings *)

(** ** The header and the token *)

Lemma split_no_blank s : no_blank s = true -> split " "%char s = [s].
Proof.
  induction s as [|c s IH]; simpl; [reflexivity|].
  intros H. apply andb_true_iff in H. destruct H as [Hc Hs].
  apply negb_true_iff in Hc. rewrite Hc, (IH Hs). reflexivity.
Qed.

Lemma split_pieces_no_blank s : forall w,
  In w (split " "%char s) -> no_blank w = true.
Proof.
  induction s as [|c s IH]; simpl; intros w Hw.
  - destruct Hw as [<-|[]]. reflexivity.
  - destruct (Ascii.eqb c " "%char) eqn:Hc.
    + destruct Hw as [<-|Hw]; [reflexivity | apply IH, Hw].
    + destruct (split " "%char s) as [|w0 ws].
      * destruct Hw as [<-|[]]. simpl. rewrite Hc. reflexivity.
      * destruct Hw as [<-|Hw].
        -- simpl. rewrite Hc. simpl. apply IH. left. reflexivity.
        -- apply IH. right. exact Hw.
Qed.

Lemma bearer_no_blank h : no_blank h = true -> bearer (Some h) = None.
Proof. intros H. unfold bearer. rewrite (split_no_blank h H). reflexivity. Qed.

Lemma bearer_client_header token :
  no_blank token = true ->
  bearer (Some ("Bearer " ++ token)%string) = Some token.
Proof.
  intros H. unfold bearer. simpl. rewrite (split_no_blank token H).
  reflexivity.
Qed.

(** X1: the header the pages build, "Bearer " followed by the stored
    token, is read back by the prologue of the handlers: for a token
    without a blank the caller is user [u] exactly when the token is not
    empty and decodes to [u], [u] not being 0. *)
Theorem authenticate_client_header decode token u :
  no_blank token = true ->
  (authenticate decode (Some ("Bearer " ++ token)%string) = Caller u
   <-> token <> "" /\ decode token = Some u /\ u <> 0%Z).
Proof.
  intros Hnb. unfold authenticate. rewrite (bearer_client_header token Hnb).
  simpl. destruct (String.eqb_spec token "") as [->|Hne].
  - split; [discriminate | intros [H _]; congruence].
  - destruct (decode token) as [v|]; simpl.
    + destruct (Z.eqb_spec v 0) as [->|Hv].
      * split; [discriminate | intros (_ & [= <-] & H); congruence].
      * split; [intros [= <-]; auto | intros (_ & [= <-] & _); reflexivity].
    + split; [discriminate | intros (_ & H & _); discriminate].
Qed.

Lemma authenticate_client_header_witness :
  no_blank "alice" = true /\
  authenticate demo_decode (Some "Bearer alice") = Caller 1%Z.
Proof.
  split; [reflexivity|].
  apply (proj2 (authenticate_client_header demo_decode "alice" 1%Z eq_refl)).
  repeat split; discriminate.
Defined.

(** X2: a header that holds the bare token, with no blank in it, as the
    earlier room page sends it, counts as no token: every handler that
    reads the header answers 401 "Authorization token is missing" and
    leaves the database as it is, whatever the token is worth. *)
Theorem bare_token_is_missing decode ranks suits id_is c h db :
  authorization_of c = Some (Some h) ->
  no_blank h = true ->
  handle decode ranks suits id_is c db
  = Some (status_send 401 "Authorization token is missing", db) /\
  (forall code,
      getPlayerInRoom decode (Some h) code db
      = mkReply 401 (Plain "Authorization token is missing") /\
      getPlayerIsHost decode (Some h) code db
      = mkReply 401 (Plain "Authorization token is missing")).
Proof.
  intros Hc Hnb.
  assert (Hb : bearer (Some h) = None) by (apply bearer_no_blank, Hnb).
  assert (Hauth : authenticate decode (Some h) = NoToken)
    by (unfold authenticate; rewrite Hb; reflexivity).
  split.
  - destruct c as [a candidates | a code | a code | a code | a code | id
                  | a code number seed | a code | a code r | a code];
      simpl in Hc; try discriminate Hc; injection Hc as ->; simpl;
      unfold createRoom, deleteRoom, joinRoom, leaveRoom, startGame,
             playCard, passTurn, drawCard, giveUp;
      rewrite ?Hauth, ?Hb; reflexivity.
  - intros code. unfold getPlayerInRoom, getPlayerIsHost. rewrite Hauth.
    split; reflexivity.
Qed.

Lemma bare_token_is_missing_witness :
  demo_decode "alice" = Some 1%Z /\
  handle demo_decode demo_ranks demo_suits demo_id_is
         (JoinRoom (Some "alice") "AB12") two_players
  = Some (status_send 401 "Authorization token is missing", two_players).
Proof.
  split; [reflexivity|].
  exact (proj1 (bare_token_is_missing demo_decode demo_ranks demo_suits
                  demo_id_is (JoinRoom (Some "alice") "AB12") "alice"
                  two_players eq_refl eq_refl)).
Defined.

(** X3: the middleware verifies the whole header and the controller
    decodes the piece after the first blank, so they never look at the
    same string.  The middleware answers 401 exactly when the header is
    missing or empty and hands on exactly the user its verification
    yields; and when verification rejects every string with a blank in
    it, a header the middleware accepts is a missing token for the
    prologue of the controller. *)
Theorem middleware_and_prologue {User : Type}
        (verify : string -> option User) decode :
  (forall a,
      (authenticateToken verify a
       = Answered 401 "Access denied. No token provided."
       <-> token_missing a = true) /\
      (forall user,
          authenticateToken verify a = Next user
          <-> exists h, a = Some h /\ h <> "" /\ verify h = Some user)) /\
  (forall h t, bearer (Some h) = Some t -> t <> h /\ no_blank t = true) /\
  ((forall s, no_blank s = false -> verify s = None) ->
   forall h user,
     authenticateToken verify (Some h) = Next user ->
     authenticate decode (Some h) = NoToken).
Proof.
  split; [|split].
  - intros a. unfold authenticateToken. split.
    + destruct a as [h|]; simpl; [|tauto].
      destruct (String.eqb_spec h ""); [tauto|].
      destruct (verify h); split; discriminate.
    + intros user. destruct a as [h|]; simpl.
      * destruct (String.eqb_spec h "") as [->|Hne].
        -- split; [discriminate | intros (h & [= <-] & H & _); congruence].
        -- destruct (verify h) as [v|] eqn:Hv.
           ++ split; [intros [= <-]; eauto |].
              intros (h' & [= <-] & _ & H). congruence.
           ++ split; [discriminate |].
              intros (h' & [= <-] & _ & H). congruence.
      * split; [discriminate | intros (h & H & _); discriminate].
  - intros h t Hb. unfold bearer in Hb.
    assert (Hin : In t (split " "%char h)) by (eapply nth_error_In, Hb).
    split; [|apply (split_pieces_no_blank h), Hin].
    intros ->. apply split_pieces_no_blank in Hin.
    rewrite (split_no_blank h Hin) in Hb. discriminate.
  - intros Hverify h user Hnext. unfold authenticateToken in Hnext.
    simpl in Hnext. destruct (String.eqb h ""); [discriminate|].
    destruct (no_blank h) eqn:Hnb.
    + unfold authenticate. rewrite (bearer_no_blank h Hnb). reflexivity.
    + rewrite (Hverify h Hnb) in Hnext. discriminate.
Qed.

Lemma middleware_and_prologue_witness :
  authenticateToken demo_decode (Some "alice") = Next 1%Z /\
  authenticate demo_decode (Some "alice") = NoToken.
Proof.
  split; [reflexivity|].
  refine (proj2 (proj2 (middleware_and_prologue demo_decode demo_decode))
                _ "alice" 1%Z eq_refl).
  intros s Hs. unfold demo_decode.
  destruct (String.eqb_spec s "alice") as [->|_]; [discriminate|].
  destruct (String.eqb_spec s "bob") as [->|_]; [discriminate|].
  destruct (String.eqb_spec s "carol") as [->|_]; [discriminate|].
  destruct (String.eqb_spec s "dave") as [->|_]; [discriminate|].
  reflexivity.
Defined.

(** ** Membership: [joinRoom], [leaveRoom], [giveUp] and the readers *)

Lemma db_eta db :
  mkDB (rooms db) (players db) (deck db) (hand_cards db) (table_cards db)
       (next_deck_id db) = db.
Proof. destruct db. reflexivity. Qed.

Lemma leaveRoom_caller decode a code db u :
  authenticate decode a = Caller u ->
  leaveRoom decode a code db
  = (send "Player left room",
     set_players (filter (stays code u) (players db)) db).
Proof. intros Hauth. unfold leaveRoom. rewrite Hauth. reflexivity. Qed.

Lemma giveUp_database decode a code db :
  snd (giveUp decode a code db) = snd (leaveRoom decode a code db).
Proof.
  destruct (authenticate decode a) as [| |u] eqn:Hauth.
  - unfold giveUp, leaveRoom. rewrite Hauth. reflexivity.
  - unfold giveUp, leaveRoom. rewrite Hauth. reflexivity.
  - destruct (players_leave decode a code db u Hauth) as [Hl Hg].
    revert Hl Hg. unfold giveUp, leaveRoom. rewrite Hauth. simpl.
    intros Hl Hg. unfold delete_player, set_players in *. simpl in *.
    rewrite Hg, Hl. reflexivity.
Qed.

(** X4: giveUp and leaveRoom leave the same database: the flag that
    giveUp clears is on the rows it deletes next.  Only the answers
    differ, the id of the caller against "Player left room". *)
Theorem giveUp_is_leaveRoom decode a code db :
  snd (giveUp decode a code db) = snd (leaveRoom decode a code db) /\
  (forall u, authenticate decode a = Caller u ->
             fst (giveUp decode a code db) = json (JsonUser u) /\
             fst (leaveRoom decode a code db) = send "Player left room").
Proof.
  split; [apply giveUp_database|].
  intros u Hauth. unfold giveUp, leaveRoom. rewrite Hauth. split; reflexivity.
Qed.

Lemma giveUp_is_leaveRoom_witness :
  authenticate demo_decode bob = Caller 2%Z /\
  fst (giveUp demo_decode bob "AB12" two_players) = json (JsonUser 2%Z).
Proof.
  split; [reflexivity|].
  exact (proj1 (proj2 (giveUp_is_leaveRoom demo_decode bob "AB12" two_players)
                  2%Z eq_refl)).
Defined.

Lemma some_row_app {A : Type} (l : list A) x : some_row (l ++ [x]) = true.
Proof. unfold some_row. rewrite length_app. simpl. apply Nat.ltb_lt. lia. Qed.

Lemma filter_and {A : Type} (f g : A -> bool) l :
  filter f (filter g l) = filter (fun x => g x && f x) l.
Proof.
  induction l as [|x l IH]; simpl; [reflexivity|].
  destruct (g x); simpl; [destruct (f x)|]; rewrite IH; reflexivity.
Qed.

Lemma player_rows_stays code u code' v ps :
  filter (fun p => String.eqb (Players.room_code p) code'
                   && Z.eqb (Players.user_id p) v)
         (filter (stays code u) ps)
  = if String.eqb code' code && Z.eqb v u then []
    else filter (fun p => String.eqb (Players.room_code p) code'
                          && Z.eqb (Players.user_id p) v) ps.
Proof.
  rewrite filter_and.
  destruct (String.eqb_spec code' code) as [->|Hc];
    destruct (Z.eqb_spec v u) as [->|Hv]; simpl.
  - rewrite <- (filter_false ps). apply filter_ext. intros p.
    unfold stays.
    destruct (String.eqb (Players.room_code p) code);
      destruct (Z.eqb (Players.user_id p) u); reflexivity.
  - apply filter_ext. intros p. unfold stays.
    destruct (String.eqb (Players.room_code p) code); simpl; [|reflexivity].
    destruct (Z.eqb_spec (Players.user_id p) u) as [->|Hu]; simpl.
    + apply Z.eqb_neq in Hv. rewrite Z.eqb_sym. rewrite Hv. reflexivity.
    + reflexivity.
  - apply filter_ext. intros p. unfold stays.
    destruct (String.eqb_spec (Players.room_code p) code) as [->|Hp]; simpl.
    + apply String.eqb_neq in Hc. rewrite String.eqb_sym, Hc.
      rewrite andb_false_r. reflexivity.
    + reflexivity.
  - apply filter_ext. intros p. unfold stays.
    destruct (String.eqb_spec (Players.room_code p) code) as [->|Hp]; simpl.
    + apply String.eqb_neq in Hc. rewrite String.eqb_sym, Hc.
      rewrite andb_false_r. reflexivity.
    + reflexivity.
Qed.

Lemma in_room_after_leave decode a code db u a' v code' :
  authenticate decode a = Caller u ->
  authenticate decode a' = Caller v ->
  getPlayerInRoom decode a' code' (snd (leaveRoom decode a code db))
  = reply (JsonBool
             (if String.eqb code' code && Z.eqb v u then false
              else some_row (player_rows code' v db))).
Proof.
  intros Hauth Hv. unfold getPlayerInRoom. rewrite Hv.
  rewrite (leaveRoom_caller _ _ _ _ _ Hauth). unfold player_rows. simpl.
  rewrite player_rows_stays.
  destruct (String.eqb code' code && Z.eqb v u); reflexivity.
Qed.

Lemma in_room_after_join decode a code db u a' v code' :
  authenticate decode a = Caller u ->
  authenticate decode a' = Caller v ->
  getPlayerInRoom decode a' code' (snd (joinRoom decode a code db))
  = reply (JsonBool
             (if String.eqb code code' && Z.eqb u v then true
              else some_row (player_rows code' v db))).
Proof.
  intros Hauth Hv. unfold getPlayerInRoom. rewrite Hv.
  rewrite (joinRoom_caller _ _ _ _ _ Hauth). unfold player_rows. simpl.
  rewrite filter_app. simpl.
  destruct (String.eqb code code' && Z.eqb u v).
  - rewrite some_row_app. reflexivity.
  - rewrite app_nil_r. reflexivity.
Qed.

(** X5: membership as the handlers report it.  After joinRoom the
    caller is in the room for getPlayerInRoom; after leaveRoom, and
    after giveUp, the caller is not; and for any other pair of a user
    and a room the answer is what it was before the join or the leave. *)
Theorem in_room_after_join_and_leave decode a code db u :
  authenticate decode a = Caller u ->
  getPlayerInRoom decode a code (snd (joinRoom decode a code db))
  = reply (JsonBool true) /\
  getPlayerInRoom decode a code (snd (leaveRoom decode a code db))
  = reply (JsonBool false) /\
  getPlayerInRoom decode a code (snd (giveUp decode a code db))
  = reply (JsonBool false) /\
  (forall a' v code',
      authenticate decode a' = Caller v ->
      code' <> code \/ v <> u ->
      getPlayerInRoom decode a' code' (snd (joinRoom decode a code db))
      = getPlayerInRoom decode a' code' db /\
      getPlayerInRoom decode a' code' (snd (leaveRoom decode a code db))
      = getPlayerInRoom decode a' code' db).
Proof.
  intros Hauth.
  assert (Hleave := fun a' v code' =>
                      in_room_after_leave decode a code db u a' v code' Hauth).
  assert (Hjoin := fun a' v code' =>
                     in_room_after_join decode a code db u a' v code' Hauth).
  split; [|split; [|split]].
  - rewrite (Hjoin a u code Hauth), String.eqb_refl, Z.eqb_refl. reflexivity.
  - rewrite (Hleave a u code Hauth), String.eqb_refl, Z.eqb_refl. reflexivity.
  - rewrite giveUp_database.
    rewrite (Hleave a u code Hauth), String.eqb_refl, Z.eqb_refl. reflexivity.
  - intros a' v code' Hv Hother.
    rewrite (Hjoin a' v code' Hv), (Hleave a' v code' Hv).
    assert (H1 : String.eqb code code' && Z.eqb u v = false).
    { apply andb_false_iff. destruct Hother as [H|H];
        [left; apply String.eqb_neq | right; apply Z.eqb_neq]; congruence. }
    assert (H2 : String.eqb code' code && Z.eqb v u = false).
    { apply andb_false_iff. destruct Hother as [H|H];
        [left; apply String.eqb_neq | right; apply Z.eqb_neq]; congruence. }
    rewrite H1, H2. unfold getPlayerInRoom. rewrite Hv. split; reflexivity.
Qed.

Lemma in_room_after_join_and_leave_witness :
  authenticate demo_decode carol = Caller 3%Z /\
  getPlayerInRoom demo_decode carol "AB12" two_players
  = reply (JsonBool false) /\
  getPlayerInRoom demo_decode carol "AB12"
                  (snd (joinRoom demo_decode carol "AB12" two_players))
  = reply (JsonBool true).
Proof.
  split; [reflexivity|]. split; [reflexivity|].
  exact (proj1 (in_room_after_join_and_leave demo_decode carol "AB12"
                  two_players 3%Z eq_refl)).
Defined.

Lemma some_row_nil {A : Type} : some_row (@nil A) = false.
Proof. reflexivity. Qed.

(** X6: who is host for getPlayerIsHost.  joinRoom changes the answer
    for nobody, the caller included: a joiner is never host.  After
    createRoom, no player row having carried the new code, the creator
    is host of the new room and every other user is not. *)
Theorem is_host_after_create_and_join decode :
  (forall a code db a' code',
      getPlayerIsHost decode a' code' (snd (joinRoom decode a code db))
      = getPlayerIsHost decode a' code' db) /\
  (forall a candidates creator code db db1,
      authenticate decode a = Caller creator ->
      createRoom decode a candidates db = Some (json (JsonCode code), db1) ->
      players_of code db = [] ->
      getPlayerIsHost decode a code db1 = reply (JsonBool true) /\
      forall a' v,
        authenticate decode a' = Caller v -> v <> creator ->
        getPlayerIsHost decode a' code db1 = reply (JsonBool false)).
Proof.
  split.
  - intros a code db a' code'. unfold getPlayerIsHost.
    destruct (authenticate decode a') as [| |v]; try reflexivity.
    unfold joinRoom. destruct (authenticate decode a) as [| |u];
      try reflexivity.
    unfold player_rows. simpl. rewrite !filter_app. simpl.
    destruct (String.eqb code code' && Z.eqb u v); simpl;
      rewrite app_nil_r; reflexivity.
  - intros a candidates creator code db db1 Hauth Hcreate Hfresh.
    unfold createRoom in Hcreate. rewrite Hauth in Hcreate.
    destruct (fresh_code candidates db) as [c|]; [|discriminate].
    injection Hcreate as -> <-.
    assert (Hrows : forall v,
               player_rows code v
                 (set_players
                    (players db ++
                     [Players.mk code creator default_team true
                                 default_in_game])
                    (set_rooms
                       (rooms db ++
                        [Rooms.mk code default_status (Some creator)]) db))
               = if Z.eqb creator v
                 then [Players.mk code creator default_team true
                                  default_in_game]
                 else []).
    { intros v. unfold player_rows. simpl. rewrite filter_app. simpl.
      rewrite String.eqb_refl. simpl.
      assert (Hnone : filter (fun p => String.eqb (Players.room_code p) code
                                       && Z.eqb (Players.user_id p) v)
                             (players db) = []).
      { rewrite <- (filter_and (fun p => Z.eqb (Players.user_id p) v)
                              (fun p => String.eqb (Players.room_code p) code)).
        fold (players_of code db). rewrite Hfresh. reflexivity. }
      rewrite Hnone. destruct (Z.eqb creator v); reflexivity. }
    split.
    + unfold getPlayerIsHost. rewrite Hauth. simpl.
      simpl in Hrows. rewrite Hrows, Z.eqb_refl. reflexivity.
    + intros a' v Hv Hne. unfold getPlayerIsHost. rewrite Hv. simpl.
      simpl in Hrows. rewrite Hrows.
      assert (H : Z.eqb creator v = false) by (apply Z.eqb_neq; congruence).
      rewrite H. reflexivity.
Qed.

Lemma is_host_after_create_and_join_witness :
  authenticate demo_decode alice = Caller 1%Z /\
  players_of "AB12" empty_db = [] /\
  getPlayerIsHost demo_decode alice "AB12"
                  (demo_run [CreateRoom alice ["AB12"]] empty_db)
  = reply (JsonBool true).
Proof.
  split; [reflexivity|]. split; [reflexivity|].
  exact (proj1 (proj2 (is_host_after_create_and_join demo_decode)
                  alice ["AB12"] 1%Z "AB12" empty_db _
                  eq_refl eq_refl eq_refl)).
Defined.

(** X7: joinRoom looks neither for the room nor at who is in it.  When
    no room carries the code, an authenticated caller still gets "Player
    joined room" and becomes a member, in team 1 when the code had no
    member: getPlayerInRoom then answers true for a room that getRoom
    reports as undefined and on which passTurn answers 404. *)
Theorem joinRoom_without_room decode a code db u :
  authenticate decode a = Caller u ->
  rooms_of code db = [] ->
  let db' := snd (joinRoom decode a code db) in
  fst (joinRoom decode a code db) = send "Player joined room" /\
  members code db' = members code db ++ [u] /\
  (members code db = [] ->
   players_of code db'
   = [Players.mk code u (Some 1%Z) false default_in_game]) /\
  getRoom code db' = reply (JsonRoom None) /\
  getPlayerInRoom decode a code db' = reply (JsonBool true) /\
  passTurn decode a code db' = (status_send 404 "Room not found", db').
Proof.
  intros Hauth Hrooms db'.
  assert (Hjoin := joinRoom_caller decode a code db u Hauth).
  assert (Hplayers : players_of code db'
                     = players_of code db
                       ++ [Players.mk code u
                             (Some (team_for (length (players_of code db))))
                             false default_in_game]).
  { subst db'. rewrite Hjoin. simpl. apply players_of_insert. reflexivity. }
  assert (Hrooms' : rooms_of code db' = []).
  { subst db'. rewrite Hjoin. exact Hrooms. }
  split; [rewrite Hjoin; reflexivity|].
  split; [unfold members; rewrite Hplayers, map_app; reflexivity|].
  split.
  { intros Hnone. rewrite Hplayers. unfold members in Hnone.
    destruct (players_of code db); [reflexivity | discriminate]. }
  split; [unfold getRoom; rewrite Hrooms'; reflexivity|].
  split.
  { subst db'. rewrite (in_room_after_join decode a code db u a u code
                          Hauth Hauth).
    rewrite String.eqb_refl, Z.eqb_refl. reflexivity. }
  unfold passTurn. rewrite Hauth, Hplayers, Hrooms', map_app, length_app.
  simpl. rewrite Nat.add_1_r. reflexivity.
Qed.

Lemma joinRoom_without_room_witness :
  authenticate demo_decode dave = Caller 4%Z /\
  rooms_of "ZZ99" two_players = [] /\
  getPlayerInRoom demo_decode dave "ZZ99"
                  (snd (joinRoom demo_decode dave "ZZ99" two_players))
  = reply (JsonBool true).
Proof.
  split; [reflexivity|]. split; [reflexivity|].
  exact (proj1 (proj2 (proj2 (proj2 (proj2
           (joinRoom_without_room demo_decode dave "ZZ99" two_players 4%Z
              eq_refl eq_refl)))))).
Defined.

Lemma filter_idem {A : Type} (f : A -> bool) l :
  filter f (filter f l) = filter f l.
Proof.
  rewrite filter_and. apply filter_ext. intros x. destruct (f x); reflexivity.
Qed.

Lemma members_stays code u ps :
  map Players.user_id
      (filter (fun p => String.eqb (Players.room_code p) code)
              (filter (stays code u) ps))
  = filter (fun v => negb (Z.eqb v u))
           (map Players.user_id
                (filter (fun p => String.eqb (Players.room_code p) code) ps)).
Proof.
  induction ps as [|p ps IH]; simpl; [reflexivity|].
  unfold stays at 1.
  destruct (String.eqb (Players.room_code p) code) eqn:Hc; simpl.
  - destruct (Z.eqb (Players.user_id p) u) eqn:Hu; simpl.
    + exact IH.
    + rewrite Hc. simpl. rewrite IH. reflexivity.
  - rewrite Hc. exact IH.
Qed.




(** X9: nothing passes the turn on when its holder leaves.  The room
    keeps pointing at the user who left, and the next passTurn, by
    whoever, gives the turn to the first of the members that remain,
    wherever the leaver stood in the order. *)
Theorem turn_after_holder_leaves decode a a' code db u v r0 rs first others :
  authenticate decode a = Caller u ->
  authenticate decode a' = Caller v ->
  rooms_of code db = r0 :: rs ->
  Rooms.turn_player_id r0 = Some u ->
  filter (fun w => negb (Z.eqb w u)) (members code db) = first :: others ->
  let db1 := snd (leaveRoom decode a code db) in
  turns code db1 = turns code db /\
  fst (passTurn decode a' code db1) = send "Turn passed" /\
  turns code (snd (passTurn decode a' code db1))
  = map (fun _ => Some first) (r0 :: rs).
Proof.
  intros Hauth Hauth' Hrooms Hturn Hrest db1.
  assert (Hmem : members code db1 = first :: others).
  { subst db1. rewrite (leaveRoom_caller _ _ _ _ _ Hauth). simpl.
    unfold members, players_of. simpl. rewrite members_stays. exact Hrest. }
  assert (Hrooms1 : rooms_of code db1 = r0 :: rs).
  { subst db1. rewrite (leaveRoom_caller _ _ _ _ _ Hauth). exact Hrooms. }
  assert (Hne : members code db1 <> []) by (rewrite Hmem; discriminate).
  split; [unfold turns; rewrite Hrooms1, Hrooms; reflexivity|].
  rewrite (passTurn_passes decode a' code db1 v r0 rs Hauth' Hrooms1 Hne).
  split; [reflexivity|]. simpl.
  rewrite turns_update_turn, Hrooms1, Hturn, next_player_absent.
  - rewrite Hmem. reflexivity.
  - intros w Hw [= ->]. rewrite Hmem, <- Hrest in Hw.
    apply filter_In in Hw. destruct Hw as [_ Hw].
    rewrite Z.eqb_refl in Hw. discriminate.
Qed.

Lemma turn_after_holder_leaves_witness :
  turns "AB12" three_players = [Some 1%Z] /\
  members "AB12" three_players = [1; 2; 3]%Z /\
  turns "AB12"
        (snd (passTurn demo_decode carol "AB12"
                (snd (leaveRoom demo_decode alice "AB12" three_players))))
  = [Some 2%Z].
Proof.
  split; [reflexivity|]. split; [reflexivity|].
  exact (proj2 (proj2 (turn_after_holder_leaves demo_decode alice carol "AB12"
                         three_players 1%Z 3%Z
                         (Rooms.mk "AB12" waiting (Some 1%Z)) [] 2%Z [3%Z]
                         eq_refl eq_refl eq_refl eq_refl eq_refl))).
Defined.

(** ** More on [passTurn] *)

Lemma scan_turn_member rows t todo : forall i next,
  rows <> [] ->
  scan_turn rows t i todo = Some next ->
  exists w, next = Some w /\ In w rows.
Proof.
  induction todo as [|w todo IH]; intros i next Hne Hscan; simpl in Hscan;
    [discriminate|].
  destruct (is_turn_of w t).
  - injection Hscan as <-.
    assert (Hlt : (i + 1) mod length rows < length rows).
    { apply Nat.mod_upper_bound. destruct rows; [congruence|discriminate]. }
    destruct (nth_error rows ((i + 1) mod length rows)) as [x|] eqn:E.
    + exists x. split; [reflexivity|]. eapply nth_error_In, E.
    + apply nth_error_None in E. lia.
  - eapply IH; eassumption.
Qed.

Lemma next_player_member rows t :
  rows <> [] -> exists w, next_player rows t = Some w /\ In w rows.
Proof.
  intros Hne. unfold next_player.
  destruct (scan_turn rows t 0 rows) as [next|] eqn:E.
  - eapply scan_turn_member; eassumption.
  - destruct rows as [|w rows]; [congruence|].
    exists w. split; [reflexivity | left; reflexivity].
Qed.

Lemma rooms_of_update_turn_other next code code' db :
  code' <> code ->
  rooms_of code' (update_turn next code db) = rooms_of code' db.
Proof.
  intros Hne. unfold rooms_of, update_turn. simpl.
  induction (rooms db) as [|r rs IH]; simpl; [reflexivity|].
  destruct (String.eqb_spec (Rooms.code r) code) as [Hr|Hr]; simpl.
  - destruct (String.eqb_spec code code'); [congruence|].
    destruct (String.eqb_spec (Rooms.code r) code'); [congruence|]. exact IH.
  - destruct (String.eqb (Rooms.code r) code'); [f_equal|]; exact IH.
Qed.

(** X10: the answers of passTurn for an authenticated caller.  A room
    without member rows is "Room not found" (404) even when the room
    exists, and so is a code with members and no room; the database is
    then as it was.  Otherwise the answer is "Turn passed", the new
    holder is one of the members of the room, whoever held the turn
    before, and nothing else is written: the players, the cards, the
    status of the room and the rooms with other codes are as before. *)
Theorem passTurn_answers decode a code db u :
  authenticate decode a = Caller u ->
  let out := passTurn decode a code db in
  (members code db = [] \/ rooms_of code db = [] ->
   out = (status_send 404 "Room not found", db)) /\
  (members code db <> [] -> rooms_of code db <> [] ->
   fst out = send "Turn passed" /\
   (exists w, In w (members code db) /\
              turns code (snd out)
              = map (fun _ => Some w) (rooms_of code db)) /\
   map Rooms.status (rooms (snd out)) = map Rooms.status (rooms db) /\
   map Rooms.code (rooms (snd out)) = map Rooms.code (rooms db) /\
   (forall code', code' <> code ->
                  rooms_of code' (snd out) = rooms_of code' db) /\
   players (snd out) = players db /\ deck (snd out) = deck db /\
   hand_cards (snd out) = hand_cards db /\
   table_cards (snd out) = table_cards db).
Proof.
  intros Hauth out. subst out. split.
  - intros Hnone. unfold passTurn. rewrite Hauth. fold (members code db).
    destruct (members code db) as [|m ms]; [reflexivity|].
    destruct Hnone as [H|H]; [discriminate|]. rewrite H. reflexivity.
  - intros Hmem Hrooms.
    destruct (rooms_of code db) as [|r0 rs] eqn:Hr; [congruence|].
    rewrite (passTurn_passes decode a code db u r0 rs Hauth Hr Hmem). simpl.
    split; [reflexivity|].
    destruct (next_player_member (members code db) (Rooms.turn_player_id r0)
                Hmem) as (w & Hw & Hin).
    split.
    { exists w. split; [exact Hin|].
      rewrite turns_update_turn, Hr, Hw. reflexivity. }
    split.
    { rewrite map_map. apply map_ext. intros r.
      destruct (String.eqb (Rooms.code r) code); reflexivity. }
    split.
    { rewrite map_map. apply map_ext. intros r.
      destruct (String.eqb (Rooms.code r) code); reflexivity. }
    split; [intros code' Hne; apply rooms_of_update_turn_other, Hne|].
    repeat split; reflexivity.
Qed.

Lemma passTurn_answers_witness :
  authenticate demo_decode bob = Caller 2%Z /\
  rooms_of "AB12" (snd (leaveRoom demo_decode alice "AB12"
                          (snd (leaveRoom demo_decode bob "AB12"
                                  two_players)))) <> [] /\
  passTurn demo_decode bob "AB12"
           (snd (leaveRoom demo_decode alice "AB12"
                   (snd (leaveRoom demo_decode bob "AB12" two_players))))
  = (status_send 404 "Room not found",
     snd (leaveRoom demo_decode alice "AB12"
            (snd (leaveRoom demo_decode bob "AB12" two_players)))).
Proof.
  split; [reflexivity|]. split; [discriminate|].
  apply (proj1 (passTurn_answers demo_decode bob "AB12" _ 2%Z eq_refl)).
  left. reflexivity.
Defined.

Lemma NoDup_first_position (rows : list UserId) i p :
  NoDup rows -> nth_error rows i = Some p ->
  forall j, j < i -> nth_error rows j <> Some p.
Proof.
  intros Hnd Hi j Hj Hjp.
  assert (Hlt : j < length rows) by (apply nth_error_Some; congruence).
  assert (E : j = i).
  { apply (proj1 (NoDup_nth_error rows) Hnd j i Hlt). congruence. }
  lia.
Qed.

Lemma with_turn_with_turn x y l :
  map (with_turn x) (map (with_turn y) l) = map (with_turn x) l.
Proof. rewrite map_map. reflexivity. Qed.

(** Passes from a state in which the rooms with the code all point at
    the member at position [i]. *)
Lemma pass_n_position decode a u code rows :
  authenticate decode a = Caller u ->
  NoDup rows ->
  forall k db rooms0 i p,
    rooms0 <> [] ->
    rooms_of code db = map (with_turn (Some p)) rooms0 ->
    members code db = rows ->
    nth_error rows i = Some p ->
    rooms_of code (pass_n decode a code k db)
    = map (with_turn (nth_error rows ((i + k) mod length rows))) rooms0 /\
    members code (pass_n decode a code k db) = rows.
Proof.
  intros Hauth Hnd. induction k as [|k IH]; intros db rooms0 i p Hne Hr Hm Hi.
  - simpl. split; [|exact Hm].
    assert (Hlt : i < length rows) by (apply nth_error_Some; congruence).
    rewrite Nat.add_0_r, Nat.mod_small, Hi by exact Hlt. exact Hr.
  - simpl. destruct rooms0 as [|x xs]; [congruence|]. simpl in Hr.
    destruct (passTurn_step decode a code db u _ _ i p Hauth Hr eq_refl)
      as (_ & Hr1 & Hm1).
    + rewrite Hm. exact Hi.
    + rewrite Hm. apply NoDup_first_position; assumption.
    + rewrite Hm in Hr1, Hm1.
      assert (Hlt : (i + 1) mod length rows < length rows).
      { apply Nat.mod_upper_bound. destruct rows; [destruct i|]; discriminate. }
      destruct (nth_error rows ((i + 1) mod length rows)) as [q|] eqn:Hq;
        [|apply nth_error_None in Hq; lia].
      destruct (IH (snd (passTurn decode a code db)) (x :: xs)
                   ((i + 1) mod length rows) q) as [Hr2 Hm2];
        try assumption; try discriminate.
      * rewrite Hr1. simpl. rewrite with_turn_with_turn. reflexivity.
      * split; [|exact Hm2]. rewrite Hr2.
        rewrite Nat.Div0.add_mod_idemp_l.
        replace (i + 1 + k) with (i + S k) by lia. reflexivity.
Qed.

(** X11: the turn goes round.  In a room whose members are pairwise
    distinct and whose turn is held by one of them, as many passes as
    the room has members, by whatever authenticated caller, bring the
    turn back to the holder; after [k] passes it is with the member [k]
    places further in the order of the rows, counted cyclically. *)
Theorem passTurn_full_cycle decode a u code db r0 rs i p :
  authenticate decode a = Caller u ->
  rooms_of code db = r0 :: rs ->
  NoDup (members code db) ->
  Rooms.turn_player_id r0 = Some p ->
  nth_error (members code db) i = Some p ->
  let n := length (members code db) in
  (forall k,
      turns code (pass_n decode a code (S k) db)
      = map (fun _ => nth_error (members code db) ((i + S k) mod n))
            (r0 :: rs)) /\
  turns code (pass_n decode a code n db) = map (fun _ => Some p) (r0 :: rs).
Proof.
  intros Hauth Hrooms Hnd Hturn Hi n.
  assert (Hlt : i < n) by (apply nth_error_Some; congruence).
  assert (Hsteps : forall k,
             turns code (pass_n decode a code (S k) db)
             = map (fun _ => nth_error (members code db) ((i + S k) mod n))
                   (r0 :: rs)).
  { intros k. simpl.
    destruct (passTurn_step decode a code db u r0 rs i p Hauth Hrooms Hturn Hi)
      as (_ & Hr1 & Hm1).
    { apply NoDup_first_position; assumption. }
    assert (Hlt1 : (i + 1) mod n < n) by (apply Nat.mod_upper_bound; lia).
    destruct (nth_error (members code db) ((i + 1) mod n)) as [q|] eqn:Hq;
      [|apply nth_error_None in Hq; fold n in Hq; lia].
    fold n in Hr1. rewrite Hq in Hr1.
    destruct (pass_n_position decode a u code (members code db) Hauth Hnd k
                (snd (passTurn decode a code db)) (r0 :: rs)
                ((i + 1) mod n) q) as [Hr2 _];
      try assumption; try discriminate.
    unfold turns. rewrite Hr2, map_map. fold n.
    rewrite Nat.Div0.add_mod_idemp_l.
    replace (i + 1 + k) with (i + S k) by lia. reflexivity. }
  split; [exact Hsteps|].
  destruct n as [|m] eqn:Hn; [lia|].
  rewrite Hsteps. apply map_ext. intros _.
  replace (i + S m) with (i + 1 * S m) by lia.
  rewrite Nat.Div0.mod_add, Nat.mod_small by lia. exact Hi.
Qed.

Lemma passTurn_full_cycle_witness :
  members "AB12" three_players = [1; 2; 3]%Z /\
  turns "AB12" three_players = [Some 1%Z] /\
  turns "AB12" (pass_n demo_decode bob "AB12" 3 three_players) = [Some 1%Z].
Proof.
  split; [reflexivity|]. split; [reflexivity|].
  refine (proj2 (passTurn_full_cycle demo_decode bob 2%Z "AB12" three_players
                   (Rooms.mk "AB12" waiting (Some 1%Z)) [] 0 1%Z
                   eq_refl eq_refl _ eq_refl eq_refl)).
  repeat constructor; simpl; intuition discriminate.
Defined.

(** ** Drawing and playing *)

Lemma drawCard_step decode a code r db u :
  deck_keyed db ->
  authenticate decode a = Caller u ->
  deck_of code db <> [] ->
  exists card before later,
    Deck.room_code card = code /\
    deck db = before ++ card :: later /\
    drawCard decode a code r db
    = (mkResponse 200 (SendCard card),
       mkDB (rooms db) (players db) (before ++ later)
            (hand_cards db ++
             [HandCards.mk code (Deck.number card) (Deck.seed card) u])
            (table_cards db) (next_deck_id db)).
Proof.
  intros [Hnd _] Hauth Hne. unfold drawCard. rewrite Hauth.
  destruct (order_by_rand_limit_1_nonempty r _ Hne) as (card & -> & Hin).
  unfold deck_of in Hin. apply filter_In in Hin. destruct Hin as [Hdeck Hcode].
  destruct (in_split _ _ Hdeck) as (before & later & Hsplit).
  exists card, before, later. simpl.
  split; [apply String.eqb_eq, Hcode|]. split; [exact Hsplit|].
  rewrite Hsplit in Hnd. rewrite Hsplit at 1.
  rewrite (filter_out_key _ _ _ Hnd). reflexivity.
Qed.

Lemma deck_keyed_drawCard decode a code r db :
  deck_keyed db -> deck_keyed (snd (drawCard decode a code r db)).
Proof.
  intros Hk.
  exact (deck_keyed_after decode [] [] (fun _ _ => false)
                          (DrawCard a code r) db Hk).
Qed.

Lemma draw_all_spec decode a code u :
  authenticate decode a = Caller u ->
  forall picks db,
    deck_keyed db ->
    length picks <= length (deck_of code db) ->
    let db' := draw_all decode a code picks db in
    exists drawn,
      length drawn = length picks /\
      hand_cards db'
      = hand_cards db ++
        map (fun c => HandCards.mk code (Deck.number c) (Deck.seed c) u)
            drawn /\
      Permutation (deck_of code db) (drawn ++ deck_of code db') /\
      (forall code', code' <> code -> deck_of code' db' = deck_of code' db) /\
      rooms db' = rooms db /\ players db' = players db /\
      table_cards db' = table_cards db.
Proof.
  intros Hauth. induction picks as [|r picks IH]; intros db Hk Hlen db'.
  - exists []. subst db'. simpl. rewrite app_nil_r.
    repeat split; reflexivity || apply Permutation_refl.
  - assert (Hne : deck_of code db <> []).
    { intros E. rewrite E in Hlen. simpl in Hlen. lia. }
    destruct (drawCard_step decode a code r db u Hk Hauth Hne)
      as (card & before & later & Hcode & Hsplit & Hdraw).
    set (db1 := snd (drawCard decode a code r db)).
    assert (Hk1 : deck_keyed db1) by (apply deck_keyed_drawCard, Hk).
    assert (Hdeck1 : deck_of code db
                     = filter (fun d => String.eqb (Deck.room_code d) code)
                              before
                       ++ card :: filter (fun d => String.eqb
                                                     (Deck.room_code d) code)
                                         later).
    { unfold deck_of. rewrite Hsplit, filter_app. simpl.
      rewrite Hcode, String.eqb_refl. reflexivity. }
    assert (Hdeck2 : deck_of code db1
                     = filter (fun d => String.eqb (Deck.room_code d) code)
                              before
                       ++ filter (fun d => String.eqb (Deck.room_code d) code)
                                 later).
    { subst db1. rewrite Hdraw. unfold deck_of. simpl. apply filter_app. }
    assert (Hlen1 : length picks <= length (deck_of code db1)).
    { rewrite Hdeck2. rewrite Hdeck1 in Hlen.
      rewrite length_app in *. simpl in Hlen. lia. }
    destruct (IH db1 Hk1 Hlen1)
      as (drawn & Hn & Hhand & Hperm & Hother & Hr & Hp & Ht).
    exists (card :: drawn). subst db'. simpl. fold db1.
    split; [simpl; rewrite Hn; reflexivity|].
    split.
    { rewrite Hhand. subst db1. rewrite Hdraw. simpl.
      rewrite <- app_assoc. reflexivity. }
    split.
    { rewrite Hdeck1. simpl.
      eapply Permutation_trans;
        [apply Permutation_sym, Permutation_middle|].
      constructor. rewrite <- Hdeck2. exact Hperm. }
    split.
    { intros code' Hne'. rewrite (Hother code' Hne').
      subst db1. rewrite Hdraw. unfold deck_of. simpl.
      rewrite Hsplit, !filter_app. simpl.
      destruct (String.eqb_spec (Deck.room_code card) code'); [congruence|].
      reflexivity. }
    rewrite Hr, Hp, Ht. subst db1. rewrite Hdraw. repeat split; reflexivity.
Qed.

(** X12: draws empty a deck card by card.  In a state the server can
    be in, as many draws as the deck of the room has rows, or fewer, all
    succeed: the rows drawn and the rows left are together the rows the
    deck had, each once, every row drawn is a hand row of the caller
    with its number and seed, and the decks of other rooms are as they
    were.  After as many draws as the deck had rows the deck is empty
    and the next draw answers 404. *)
Theorem draws_empty_the_deck
        decode ranks suits id_is a code u picks db :
  reachable decode ranks suits id_is db ->
  authenticate decode a = Caller u ->
  length picks <= length (deck_of code db) ->
  let db' := draw_all decode a code picks db in
  (exists drawn,
      length drawn = length picks /\
      hand_cards db'
      = hand_cards db ++
        map (fun c => HandCards.mk code (Deck.number c) (Deck.seed c) u)
            drawn /\
      Permutation (deck_of code db) (drawn ++ deck_of code db')) /\
  length (deck_of code db') = length (deck_of code db) - length picks /\
  (forall code', code' <> code -> deck_of code' db' = deck_of code' db) /\
  (length picks = length (deck_of code db) ->
   forall r, drawCard decode a code r db'
             = (status_send 404 "No cards left in the deck", db')).
Proof.
  intros Hreach Hauth Hlen db'.
  apply reachable_deck_keyed in Hreach.
  destruct (draw_all_spec decode a code u Hauth picks db Hreach Hlen)
    as (drawn & Hn & Hhand & Hperm & Hother & _).
  fold db' in Hhand, Hperm, Hother.
  assert (Hcount : length (deck_of code db')
                   = length (deck_of code db) - length picks).
  { apply Permutation_length in Hperm. rewrite length_app in Hperm. lia. }
  split; [exists drawn; auto|]. split; [exact Hcount|].
  split; [exact Hother|].
  intros Hall r. unfold drawCard. rewrite Hauth.
  assert (Hempty : deck_of code db' = []).
  { destruct (deck_of code db'); [reflexivity | simpl in Hcount; lia]. }
  rewrite Hempty. unfold order_by_rand_limit_1. simpl.
  destruct r; reflexivity.
Qed.

Lemma draws_empty_the_deck_witness :
  reachable demo_decode demo_ranks demo_suits demo_id_is started_game /\
  length (deck_of "AB12" started_game) = 40 /\
  length (deck_of "AB12"
            (draw_all demo_decode bob "AB12" [7; 0; 99] started_game)) = 37.
Proof.
  assert (Hreach : reachable demo_decode demo_ranks demo_suits demo_id_is
                             started_game)
    by (exists started_game_calls; vm_compute; reflexivity).
  assert (Hlen : length [7; 0; 99] <= length (deck_of "AB12" started_game))
    by (vm_compute; lia).
  split; [exact Hreach|]. split; [vm_compute; reflexivity|].
  pose proof (proj1 (proj2 (draws_empty_the_deck demo_decode demo_ranks
                              demo_suits demo_id_is bob "AB12" 2%Z
                              [7; 0; 99] started_game Hreach eq_refl Hlen)))
    as H.
  rewrite H. vm_compute. reflexivity.
Defined.

(** X13: a card on its way from the deck to the table, as the reading
    handlers show it.  In a state the server can be in, a draw from a
    deck that is not empty sends a card; getPlayerHand then lists it
    last in the hand of the caller; and once the caller has played that
    card, getRoomTableCards lists it last on the table of the room, no
    row of the caller's hand in the room shows that card any more, and
    the deck of the room is one row shorter than before the draw. *)
Theorem drawn_card_played
        decode ranks suits id_is a code r db u :
  reachable decode ranks suits id_is db ->
  authenticate decode a = Caller u ->
  deck_of code db <> [] ->
  exists card,
    In card (deck_of code db) /\
    fst (drawCard decode a code r db) = mkResponse 200 (SendCard card) /\
    let db1 := snd (drawCard decode a code r db) in
    let db2 := snd (playCard decode a code (Deck.number card) (Deck.seed card)
                             db1) in
    getPlayerHand code u db1
    = reply (JsonHandCards
               (hand_of code u db ++
                [HandCards.mk code (Deck.number card) (Deck.seed card) u])) /\
    getRoomTableCards code db2
    = reply (JsonTableCards
               (table_of code db ++
                [TableCards.mk code u (Deck.number card) (Deck.seed card)])) /\
    (forall h, In h (hand_of code u db2) -> hand_card h <> card_of card) /\
    length (deck_of code db2) + 1 = length (deck_of code db).
Proof.
  intros Hreach Hauth Hne. apply reachable_deck_keyed in Hreach.
  destruct (drawCard_step decode a code r db u Hreach Hauth Hne)
    as (card & before & later & Hcode & Hsplit & Hdraw).
  exists card. rewrite Hdraw. simpl.
  rewrite (playCard_caller _ _ _ _ _ _ _ Hauth). simpl.
  split.
  { unfold deck_of. rewrite Hsplit. apply filter_In. split.
    - apply in_or_app. right. left. reflexivity.
    - apply String.eqb_eq, Hcode. }
  split; [reflexivity|].
  split.
  { unfold getPlayerHand, hand_of. simpl. rewrite filter_app. simpl.
    rewrite String.eqb_refl, Z.eqb_refl. reflexivity. }
  split.
  { unfold getRoomTableCards, table_of. simpl. rewrite filter_app. simpl.
    rewrite String.eqb_refl. reflexivity. }
  split.
  { intros h Hh. unfold hand_of in Hh. simpl in Hh.
    apply filter_In in Hh. destruct Hh as [Hh Hmine].
    apply filter_In in Hh. destruct Hh as [_ Hnot].
    apply negb_true_iff in Hnot. unfold hand_matches in Hnot.
    rewrite Hmine in Hnot. simpl in Hnot.
    unfold hand_card, card_of. intros [= Hn Hs].
    rewrite Hn, Hs, Z.eqb_refl, String.eqb_refl in Hnot. discriminate. }
  unfold deck_of. simpl. rewrite Hsplit, !filter_app. simpl.
  rewrite Hcode, String.eqb_refl, !length_app. simpl. lia.
Qed.

Lemma drawn_card_played_witness :
  reachable demo_decode demo_ranks demo_suits demo_id_is started_game /\
  deck_of "AB12" started_game <> [] /\
  exists card,
    fst (drawCard demo_decode bob "AB12" 7 started_game)
    = mkResponse 200 (SendCard card).
Proof.
  assert (Hreach : reachable demo_decode demo_ranks demo_suits demo_id_is
                             started_game)
    by (exists started_game_calls; vm_compute; reflexivity).
  assert (Hne : deck_of "AB12" started_game <> [])
    by (vm_compute; discriminate).
  split; [exact Hreach|]. split; [exact Hne|].
  destruct (drawn_card_played demo_decode demo_ranks demo_suits demo_id_is
              bob "AB12" 7 started_game 2%Z Hreach eq_refl Hne)
    as (card & _ & Hresp & _).
  exists card. exact Hresp.
Defined.

(** ** Where the cards come from *)

Lemma cards_generated_incl ranks suits db db' :
  incl (deck db') (deck db) -> incl (hand_cards db') (hand_cards db) ->
  cards_generated ranks suits db -> cards_generated ranks suits db'.
Proof.
  intros Hd Hh [Hdeck Hhand]. split.
  - intros d Hin. apply Hdeck, Hd, Hin.
  - intros h Hin. apply Hhand, Hh, Hin.
Qed.

Lemma cards_generated_after decode ranks suits id_is c db :
  cards_generated ranks suits db ->
  cards_generated ranks suits (after decode ranks suits id_is c db).
Proof.
  intros Hg. unfold after, handle.
  destruct c as [a candidates | a code | a code | a code | a code | id
                | a code number seed | a code | a code r | a code]; simpl.
  - unfold createRoom. prologue decode a; try assumption.
    destruct (fresh_code candidates db); simpl; [|assumption].
    eapply cards_generated_incl; [| |exact Hg]; apply incl_refl.
  - unfold deleteRoom. destruct (token_missing _); simpl; assumption.
  - unfold joinRoom. prologue decode a; assumption.
  - unfold leaveRoom. prologue decode a; assumption.
  - destruct (startGame decode ranks suits a code db) as [resp db'] eqn:E.
    destruct (authenticate decode a) as [| |u] eqn:Hauth.
    + unfold startGame in E. rewrite Hauth in E. injection E as _ <-.
      exact Hg.
    + unfold startGame in E. rewrite Hauth in E. injection E as _ <-.
      exact Hg.
    + destruct (startGame_caller decode ranks suits a code db u Hauth)
        as (_ & _ & _ & Hdeck & Hhand & _).
      rewrite E in Hdeck, Hhand. simpl in Hdeck, Hhand.
      destruct Hg as [Hgd Hgh]. split.
      * intros d Hin. rewrite Hdeck in Hin. apply in_app_iff in Hin.
        destruct Hin as [Hin|Hin]; [apply Hgd, Hin|].
        apply (in_map card_of) in Hin. rewrite deck_rows_cards in Hin.
        exact Hin.
      * intros h Hin. rewrite Hhand in Hin. apply Hgh, Hin.
  - eapply cards_generated_incl; [| |exact Hg];
      [apply incl_refl | apply incl_filter].
  - unfold playCard. prologue decode a; try assumption.
    eapply cards_generated_incl; [| |exact Hg];
      [apply incl_refl | apply incl_filter].
  - unfold passTurn. prologue decode a; try assumption.
    destruct (Nat.eqb _ 0); simpl; try assumption.
    destruct (rooms_of code db); simpl; assumption.
  - unfold drawCard. prologue decode a; try assumption.
    unfold order_by_rand_limit_1.
    destruct (nth_error (deck_of code db) (r mod length (deck_of code db)))
      as [card|] eqn:E; simpl; [|assumption].
    apply nth_error_In in E. unfold deck_of in E. apply filter_In in E.
    destruct E as [Hcard _]. destruct Hg as [Hgd Hgh]. split; simpl.
    + intros d Hin. apply filter_In in Hin. apply Hgd. tauto.
    + intros h Hin. apply in_app_iff in Hin.
      destruct Hin as [Hin|[<-|[]]]; [apply Hgh, Hin|].
      apply (Hgd card Hcard).
  - unfold giveUp. prologue decode a; assumption.
Qed.

(** X14: whatever the requests, the deck and the hands hold only cards
    of the generator: in every state the server can be in, the number
    and seed of each deck row and of each hand row are those of a card
    that generateDeck yields.  Hand rows are only ever copied from deck
    rows, and deck rows only from the generated deck. *)
Theorem only_generated_cards decode ranks suits id_is db :
  reachable decode ranks suits id_is db ->
  (forall d, In d (deck db) ->
             In (Deck.number d, Deck.seed d) (generateDeck ranks suits)) /\
  (forall code player_id h,
      In h (hand_of code player_id db) ->
      In (HandCards.number h, HandCards.seed h) (generateDeck ranks suits)).
Proof.
  intros [calls ->].
  assert (Hg : cards_generated ranks suits
                 (run decode ranks suits id_is calls empty_db)).
  { unfold run.
    assert (H0 : cards_generated ranks suits empty_db)
      by (split; intros x []).
    revert H0. generalize empty_db.
    induction calls as [|c calls IH]; intros db H0; simpl; [exact H0|].
    apply IH, cards_generated_after, H0. }
  destruct Hg as [Hd Hh]. split; [exact Hd|].
  intros code player_id h Hin. unfold hand_of in Hin.
  apply filter_In in Hin. apply Hh. tauto.
Qed.

Lemma only_generated_cards_witness :
  reachable demo_decode demo_ranks demo_suits demo_id_is bob_drew /\
  forall h, In h (hand_of "AB12" 2%Z bob_drew) ->
            In (HandCards.number h, HandCards.seed h)
               (generateDeck demo_ranks demo_suits).
Proof.
  assert (Hreach : reachable demo_decode demo_ranks demo_suits demo_id_is
                             bob_drew)
    by (exists (started_game_calls ++ [DrawCard bob "AB12" 7]);
        vm_compute; reflexivity).
  split; [exact Hreach|].
  exact (proj2 (only_generated_cards demo_decode demo_ranks demo_suits
                  demo_id_is bob_drew Hreach) "AB12" 2%Z).
Defined.

(** ** [deleteRoom] and [endGame] on the whole database *)

Lemma filter_none_matching code rs :
  filter (fun r => String.eqb (Rooms.code r) code) rs = [] ->
  filter (fun r => negb (String.eqb (Rooms.code r) code)) rs = rs.
Proof.
  induction rs as [|r rs IH]; simpl; [reflexivity|].
  destruct (String.eqb (Rooms.code r) code); simpl; [discriminate|].
  intros H. f_equal. apply IH, H.
Qed.

Lemma rooms_of_after_delete code code' rs :
  filter (fun r => String.eqb (Rooms.code r) code')
         (filter (fun r => negb (String.eqb (Rooms.code r) code)) rs)
  = if String.eqb code' code then []
    else filter (fun r => String.eqb (Rooms.code r) code') rs.
Proof.
  rewrite filter_and. destruct (String.eqb_spec code' code) as [->|Hne].
  - rewrite <- (filter_false rs). apply filter_ext. intros r.
    destruct (String.eqb (Rooms.code r) code); reflexivity.
  - apply filter_ext. intros r.
    destruct (String.eqb_spec (Rooms.code r) code) as [->|Hr]; simpl;
      [|reflexivity].
    symmetry. apply String.eqb_neq. congruence.
Qed.

(** X15: deleteRoom does not look whether the room exists.  With a token
    in the header, a code that no room carries is answered "Room
    deleted" like any other and the database is as it was; deleting a
    room a second time is such a request; and the rooms with other codes
    are never touched. *)
Theorem deleteRoom_of_no_room a code db :
  token_missing (bearer a) = false ->
  let db' := snd (deleteRoom a code db) in
  (rooms_of code db = [] -> deleteRoom a code db = (send "Room deleted", db)) /\
  deleteRoom a code db' = (send "Room deleted", db') /\
  (forall code', code' <> code -> rooms_of code' db' = rooms_of code' db).
Proof.
  intros Htoken db'. subst db'. unfold deleteRoom. rewrite Htoken. simpl.
  split; [|split].
  - intros Hnone. unfold rooms_of in Hnone.
    rewrite (filter_none_matching code (rooms db) Hnone).
    unfold set_rooms. rewrite db_eta. reflexivity.
  - unfold set_rooms. simpl. rewrite filter_idem. reflexivity.
  - intros code' Hne. unfold rooms_of. simpl. rewrite rooms_of_after_delete.
    destruct (String.eqb_spec code' code); [congruence | reflexivity].
Qed.

Lemma deleteRoom_of_no_room_witness :
  token_missing (bearer bob) = false /\
  rooms_of "ZZ99" two_players = [] /\
  deleteRoom bob "ZZ99" two_players = (send "Room deleted", two_players).
Proof.
  split; [reflexivity|]. split; [reflexivity|].
  exact (proj1 (deleteRoom_of_no_room bob "ZZ99" two_players eq_refl)
               eq_refl).
Defined.

Lemma existsb_eqb_In (v : Z) l :
  existsb (Z.eqb v) l = true <-> In v l.
Proof.
  rewrite existsb_exists. split.
  - intros (x & Hin & Hx). apply Z.eqb_eq in Hx. subst. exact Hin.
  - intros Hin. exists v. split; [exact Hin | apply Z.eqb_refl].
Qed.

(** X16: what endGame writes.  The hand rows of every member of the
    room named in the request are deleted, in whatever room the rows
    are, and the hand rows of everybody else are kept as they are; the
    deck and the table of the room are not cleared, no player row
    changes, and no room gets another code or another turn holder. *)
Theorem endGame_clears_hands_of_members id_is id db :
  let db' := snd (endGame id_is id db) in
  (forall u code, In u (members id db) -> hand_of code u db' = []) /\
  (forall v code, ~ In v (members id db) ->
                  hand_of code v db' = hand_of code v db) /\
  deck db' = deck db /\
  table_cards db' = table_cards db /\
  players db' = players db /\
  map Rooms.code (rooms db') = map Rooms.code (rooms db) /\
  map Rooms.turn_player_id (rooms db')
  = map Rooms.turn_player_id (rooms db).
Proof.
  intros db'. subst db'. simpl. fold (members id db).
  split; [|split].
  - intros u code Hin. unfold hand_of. simpl. rewrite filter_and.
    rewrite <- (filter_false (hand_cards db)). apply filter_ext_in.
    intros h _.
    destruct (Z.eqb_spec (HandCards.player_id h) u) as [Hu|Hu];
      [|rewrite andb_false_r, andb_false_r; reflexivity].
    assert (H : existsb (Z.eqb (HandCards.player_id h)) (members id db)
                = true) by (apply existsb_eqb_In; rewrite Hu; exact Hin).
    rewrite H. reflexivity.
  - intros v code Hout. unfold hand_of. simpl. rewrite filter_and.
    apply filter_ext_in. intros h _.
    destruct (Z.eqb_spec (HandCards.player_id h) v) as [Hv|Hv];
      [|rewrite !andb_false_r; reflexivity].
    destruct (existsb (Z.eqb (HandCards.player_id h)) (members id db))
      eqn:E; [|reflexivity].
    apply existsb_eqb_In in E. rewrite Hv in E. contradiction.
  - repeat split; try reflexivity.
    + rewrite map_map. apply map_ext. intros r.
      destruct (id_is r id); reflexivity.
    + rewrite map_map. apply map_ext. intros r.
      destruct (id_is r id); reflexivity.
Qed.

Lemma endGame_clears_hands_of_members_witness :
  In 2%Z (members "AB12" two_rooms) /\
  hand_of "CD34" 2%Z two_rooms <> [] /\
  hand_of "CD34" 2%Z (snd (endGame demo_id_is "AB12" two_rooms)) = [].
Proof.
  assert (Hin : In 2%Z (members "AB12" two_rooms))
    by (vm_compute; right; left; reflexivity).
  split; [exact Hin|]. split; [vm_compute; discriminate|].
  exact (proj1 (endGame_clears_hands_of_members demo_id_is "AB12" two_rooms)
               2%Z "CD34" Hin).
Defined.

(** ** The start button of the room page *)

Lemma clicks_when_started music shown :
  RoomPage.clicks music shown false
  = (false,
     map (fun _ => RoomPage.Notify "This game is starting soon, please wait"
                                   "danger")
         shown).
Proof.
  induction shown as [|n shown IH]; simpl; [reflexivity|].
  rewrite IH. reflexivity.
Qed.

(** X17: the START GAME button.  The button is green ("success")
    exactly when a first click sends the start request, that is with 2
    or with 4 players on the page.  Only the first click of a visit can
    send the request: it clears the flag [canStart], which nothing sets
    again, so every later click only shows "This game is starting soon,
    please wait", also when the first click was refused for the number
    of players and the room has filled up since. *)
Theorem start_button music first later :
  (RoomPage.getButtonColor first = "success"
   <-> RoomPage.startGame music first = [RoomPage.PostStart]) /\
  (RoomPage.getButtonColor first = "success" <-> first = 2 \/ first = 4) /\
  RoomPage.clicks music (first :: later) true
  = (false,
     RoomPage.startGame music first
     ++ map (fun _ => RoomPage.Notify
                        "This game is starting soon, please wait" "danger")
            later) /\
  (In RoomPage.PostStart
      (snd (RoomPage.clicks music (first :: later) true))
   <-> first = 2 \/ first = 4).
Proof.
  assert (Hcolor : RoomPage.getButtonColor first = "success"
                   <-> first = 2 \/ first = 4).
  { unfold RoomPage.getButtonColor.
    destruct (Nat.eqb_spec first 2) as [->|H2]; simpl; [tauto|].
    destruct (Nat.eqb_spec first 4) as [->|H4]; simpl; [tauto|].
    split; [discriminate | intros [H|H]; contradiction]. }
  assert (Hpost : RoomPage.startGame music first = [RoomPage.PostStart]
                  <-> first = 2 \/ first = 4).
  { unfold RoomPage.startGame.
    destruct (Nat.eqb_spec first 2) as [->|H2]; simpl; [tauto|].
    destruct (Nat.eqb_spec first 4) as [->|H4]; simpl; [tauto|].
    split; [destruct music; discriminate | intros [H|H]; contradiction]. }
  split; [rewrite Hcolor, Hpost; tauto|]. split; [exact Hcolor|].
  split.
  - simpl. rewrite clicks_when_started. reflexivity.
  - simpl. rewrite clicks_when_started. simpl. rewrite in_app_iff.
    split.
    + intros [Hin|Hin].
      * unfold RoomPage.startGame in Hin.
        destruct (Nat.eqb_spec first 2) as [->|H2]; [tauto|].
        destruct (Nat.eqb_spec first 4) as [->|H4]; [tauto|].
        simpl in Hin. destruct music; simpl in Hin;
          repeat (destruct Hin as [Hin|Hin]; try discriminate Hin);
          destruct Hin.
      * apply in_map_iff in Hin. destruct Hin as (n & Hn & _).
        discriminate Hn.
    + intros H. left. apply Hpost in H. rewrite H. left. reflexivity.
Qed.

(** ** The socket relay *)

Lemma has_joined_join st s room s' room' :
  Relay.has_joined (Relay.join s room st) s' room'
  = Relay.has_joined st s' room'
    || (String.eqb s' s && String.eqb room' room).
Proof.
  unfold Relay.join.
  destruct (Relay.has_joined st s room) eqn:E.
  - destruct (String.eqb_spec s' s) as [->|Hs];
      destruct (String.eqb_spec room' room) as [->|Hr]; simpl;
      rewrite ?orb_false_r; try reflexivity.
    rewrite E. reflexivity.
  - unfold Relay.has_joined. simpl. rewrite existsb_app. simpl.
    rewrite orb_false_r. rewrite (String.eqb_sym s s').
    rewrite (String.eqb_sym room room'). reflexivity.
Qed.

Lemma has_joined_leave st s room s' room' :
  Relay.has_joined (Relay.leave s room st) s' room'
  = Relay.has_joined st s' room'
    && negb (String.eqb s' s && String.eqb room' room).
Proof.
  unfold Relay.leave, Relay.has_joined. simpl.
  induction (Relay.joined st) as [|[x r] js IH]; simpl; [reflexivity|].
  destruct (String.eqb_spec x s) as [Hx|Hx];
    destruct (String.eqb_spec r room) as [Hr|Hr];
    destruct (String.eqb_spec x s') as [Hx'|Hx'];
    destruct (String.eqb_spec r room') as [Hr'|Hr'];
    destruct (String.eqb_spec s' s) as [Hs|Hs];
    destruct (String.eqb_spec room' room) as [Hroom|Hroom];
    simpl; rewrite ?IH; simpl;
    rewrite ?String.eqb_refl, ?andb_true_r, ?andb_false_r, ?orb_false_r;
    try reflexivity; try congruence;
    repeat match goal with
           | |- context [String.eqb ?a ?b] =>
               destruct (String.eqb_spec a b); try congruence
           end;
    simpl; rewrite ?andb_true_r, ?andb_false_r; try reflexivity.
Qed.

Lemma to_room_emit_In st sender room event payload d :
  In d (Relay.to_room_emit st sender room event payload)
  <-> In (Relay.recipient d) (Relay.connected st) /\
      Relay.in_room st room (Relay.recipient d) = true /\
      Relay.recipient d <> sender /\
      Relay.event d = event /\ Relay.payload d = payload.
Proof.
  unfold Relay.to_room_emit. rewrite in_map_iff. split.
  - intros (s & <- & Hs). apply filter_In in Hs. destruct Hs as [Hc Hf].
    apply andb_true_iff in Hf. destruct Hf as [Hroom Hne].
    apply negb_true_iff, String.eqb_neq in Hne. simpl. auto.
  - intros (Hc & Hroom & Hne & <- & <-). exists (Relay.recipient d).
    destruct d as [s e p]. simpl in *. split; [reflexivity|].
    apply filter_In. split; [exact Hc|]. rewrite Hroom. simpl.
    apply negb_true_iff, String.eqb_neq, Hne.
Qed.

Lemma connected_join st s room :
  Relay.connected (Relay.join s room st) = Relay.connected st.
Proof. unfold Relay.join. destruct (Relay.has_joined st s room); reflexivity. Qed.

Lemma in_room_join_other st s room s' room' :
  s' <> s ->
  Relay.in_room (Relay.join s room st) room' s' = Relay.in_room st room' s'.
Proof.
  intros Hne. unfold Relay.in_room. rewrite has_joined_join.
  apply String.eqb_neq in Hne. rewrite Hne. simpl.
  rewrite orb_false_r. reflexivity.
Qed.

(** X18: the relay forwards to the others in the room and to nobody
    else.  Whatever a socket sends, a message goes out to a socket
    exactly when that socket is connected, is not the sender, and is in
    the room the message names, the sender needing not be in it; the
    message that goes out carries the name the handler gives it
    (playerJoined, playerLeft, gameStarted, turnPassed, cardPlayed,
    gameEnded) and the player the sender passed, or nothing for
    gameStarted and gameEnded; joinGame, and a message the server has
    no handler for, reach nobody: joinGame only puts the sender in the
    room of the game; and no message changes which rooms another socket
    has joined, while the sender's own rooms change by joinRoom,
    joinGame and leaveRoom only. *)
Theorem relay_forwards_to_the_others sender m st :
  (forall d,
      In d (snd (Relay.on sender m st)) ->
      In (Relay.recipient d) (Relay.connected st) /\
      Relay.recipient d <> sender /\
      (exists room, Relay.room_of m = Some room /\
                    Relay.in_room st room (Relay.recipient d) = true) /\
      In (Relay.event d)
         ["playerJoined"; "playerLeft"; "gameStarted"; "turnPassed";
          "cardPlayed"; "gameEnded"]) /\
  (forall s room,
      Relay.room_of m = Some room ->
      (forall game player, m <> Relay.JoinGame game player) ->
      In s (Relay.connected st) -> s <> sender ->
      Relay.in_room st room s = true ->
      exists d, In d (snd (Relay.on sender m st)) /\ Relay.recipient d = s) /\
  (forall s room,
      s <> sender ->
      Relay.has_joined (fst (Relay.on sender m st)) s room
      = Relay.has_joined st s room) /\
  (forall name, m = Relay.Unhandled name -> Relay.on sender m st = (st, [])) /\
  (forall d,
      In d (snd (Relay.on sender m st)) <->
      match m with
      | Relay.JoinRoom room player =>
          In (Relay.recipient d) (Relay.connected st) /\
          Relay.in_room st room (Relay.recipient d) = true /\
          Relay.recipient d <> sender /\
          Relay.event d = "playerJoined" /\ Relay.payload d = player
      | Relay.LeaveRoom room player =>
          In (Relay.recipient d) (Relay.connected st) /\
          Relay.in_room st room (Relay.recipient d) = true /\
          Relay.recipient d <> sender /\
          Relay.event d = "playerLeft" /\ Relay.payload d = player
      | Relay.StartGame room =>
          In (Relay.recipient d) (Relay.connected st) /\
          Relay.in_room st room (Relay.recipient d) = true /\
          Relay.recipient d <> sender /\
          Relay.event d = "gameStarted" /\ Relay.payload d = None
      | Relay.PassTurn game player =>
          In (Relay.recipient d) (Relay.connected st) /\
          Relay.in_room st game (Relay.recipient d) = true /\
          Relay.recipient d <> sender /\
          Relay.event d = "turnPassed" /\ Relay.payload d = player
      | Relay.PlayCard game player =>
          In (Relay.recipient d) (Relay.connected st) /\
          Relay.in_room st game (Relay.recipient d) = true /\
          Relay.recipient d <> sender /\
          Relay.event d = "cardPlayed" /\ Relay.payload d = player
      | Relay.EndGame game =>
          In (Relay.recipient d) (Relay.connected st) /\
          Relay.in_room st game (Relay.recipient d) = true /\
          Relay.recipient d <> sender /\
          Relay.event d = "gameEnded" /\ Relay.payload d = None
      | Relay.JoinGame _ _ | Relay.Unhandled _ => False
      end) /\
  (forall game player,
      m = Relay.JoinGame game player ->
      snd (Relay.on sender m st) = [] /\
      Relay.connected (fst (Relay.on sender m st)) = Relay.connected st /\
      Relay.has_joined (fst (Relay.on sender m st)) sender game = true) /\
  (forall room,
      Relay.has_joined (fst (Relay.on sender m st)) sender room
      = match m with
        | Relay.JoinRoom r _ | Relay.JoinGame r _ =>
            Relay.has_joined st sender room || String.eqb room r
        | Relay.LeaveRoom r _ =>
            Relay.has_joined st sender room && negb (String.eqb room r)
        | _ => Relay.has_joined st sender room
        end).
Proof.
  split; [|split; [|split; [|split; [|split; [|split]]]]].
  - intros d Hd.
    destruct m as [room p | room p | room | game p | game p | game p | game
                  | name]; simpl in Hd; try contradiction;
      apply to_room_emit_In in Hd;
      destruct Hd as (Hc & Hroom & Hne & He & _);
      rewrite ?connected_join in Hc;
      (split; [exact Hc|]); (split; [exact Hne|]);
      (split; [eexists; split; [reflexivity|];
               rewrite ?in_room_join_other in Hroom by exact Hne;
               exact Hroom|]);
      rewrite He; simpl; tauto.
  - intros s room Hm Hnot Hc Hne Hroom.
    destruct m as [room0 p | room0 p | room0 | game p | game p | game p
                  | game | name]; simpl in Hm; try discriminate Hm;
      try (exfalso; eapply Hnot; reflexivity);
      injection Hm as ->; simpl;
      eexists (Relay.mkDelivery s _ _); (split; [|reflexivity]);
      apply to_room_emit_In; simpl;
      rewrite ?connected_join, ?in_room_join_other by exact Hne; auto.
  - intros s room Hne.
    destruct m as [room0 p | room0 p | room0 | game p | game p | game p
                  | game | name]; simpl; try reflexivity.
    + rewrite has_joined_join. apply String.eqb_neq in Hne. rewrite Hne.
      simpl. apply orb_false_r.
    + rewrite has_joined_leave. apply String.eqb_neq in Hne. rewrite Hne.
      simpl. apply andb_true_r.
    + rewrite has_joined_join. apply String.eqb_neq in Hne. rewrite Hne.
      simpl. apply orb_false_r.
  - intros name ->. reflexivity.
  - intros d.
    destruct m as [room p | room p | room | game p | game p | game p | game
                  | name]; simpl; try tauto;
      rewrite to_room_emit_In; try tauto.
    rewrite connected_join. split.
    + intros (Hc & Hroom & Hne & He & Hp).
      rewrite in_room_join_other in Hroom by exact Hne. tauto.
    + intros (Hc & Hroom & Hne & He & Hp).
      rewrite in_room_join_other by exact Hne. tauto.
  - intros game player ->. simpl. split; [reflexivity|].
    split; [apply connected_join|].
    rewrite has_joined_join, !String.eqb_refl. apply orb_true_r.
  - intros room.
    destruct m as [room0 p | room0 p | room0 | game p | game p | game p
                  | game | name]; simpl; try reflexivity.
    + rewrite has_joined_join, String.eqb_refl. reflexivity.
    + rewrite has_joined_leave, String.eqb_refl. reflexivity.
    + rewrite has_joined_join, String.eqb_refl. reflexivity.
Qed.

Lemma filter_not_joined s room (js : list (Relay.SocketId * string)) :
  existsb (fun j => String.eqb (fst j) s && String.eqb (snd j) room) js
  = false ->
  filter (fun j => negb (String.eqb (fst j) s && String.eqb (snd j) room)) js
  = js.
Proof.
  induction js as [|[x r] js IH]; simpl; [reflexivity|].
  destruct (String.eqb x s && String.eqb r room); simpl; [discriminate|].
  intros H. f_equal. apply IH, H.
Qed.

Lemma leave_join st s room :
  Relay.has_joined st s room = false ->
  Relay.leave s room (Relay.join s room st) = st.
Proof.
  intros H. unfold Relay.join. rewrite H. unfold Relay.leave.
  cbn [Relay.connected Relay.joined]. rewrite filter_app.
  cbn [filter fst snd]. rewrite !String.eqb_refl. cbn [andb negb].
  rewrite app_nil_r. unfold Relay.has_joined in H.
  destruct st as [c js]. cbn [Relay.connected Relay.joined] in *.
  f_equal. apply filter_not_joined, H.
Qed.

(** X19: leaving a room of the relay.  The other sockets in the room
    are told "playerLeft" before the sender is taken out; from then on
    no message addressed to that room reaches the socket that left, the
    room not being the one named by its own id; and for a socket that
    had not joined the room, joining and leaving it leaves the relay as
    it was. *)
Theorem relay_leave s room player st :
  let st' := fst (Relay.on s (Relay.LeaveRoom room player) st) in
  (forall t, In t (Relay.connected st) -> t <> s ->
             Relay.in_room st room t = true ->
             In (Relay.mkDelivery t "playerLeft" player)
                (snd (Relay.on s (Relay.LeaveRoom room player) st))) /\
  (s <> room ->
   forall t m d,
     Relay.room_of m = Some room ->
     In d (snd (Relay.on t m st')) -> Relay.recipient d <> s) /\
  (Relay.has_joined st s room = false ->
   forall player',
     fst (Relay.on s (Relay.LeaveRoom room player)
                   (fst (Relay.on s (Relay.JoinRoom room player') st)))
     = st).
Proof.
  intros st'. split; [|split].
  - intros t Hc Hne Hroom. simpl. apply to_room_emit_In. simpl. auto.
  - intros Hid t m d Hm Hd Hrec.
    assert (Hout : Relay.in_room st' room s = false).
    { subst st'. simpl. unfold Relay.in_room. rewrite has_joined_leave.
      rewrite !String.eqb_refl. simpl. rewrite andb_false_r, orb_false_r.
      apply String.eqb_neq, Hid. }
    destruct (String.eqb_spec s t) as [<-|Hst].
    + destruct m as [room0 p | room0 p | room0 | game p | game p | game p
                    | game | name]; simpl in Hd; try contradiction;
        apply to_room_emit_In in Hd; tauto.
    + destruct m as [room0 p | room0 p | room0 | game p | game p | game p
                    | game | name]; simpl in Hm, Hd; try contradiction;
        try discriminate Hm; injection Hm as ->;
        apply to_room_emit_In in Hd;
        destruct Hd as (_ & Hroom & _);
        rewrite Hrec in Hroom;
        rewrite ?in_room_join_other in Hroom by exact Hst;
        congruence.
  - intros Hnot player'. exact (leave_join st s room Hnot).
Qed.

Lemma relay_forwards_to_the_others_witness :
  Relay.in_room demo_relay "AB12" "s3" = false /\
  (exists d,
      In d (snd (Relay.on "s3" (Relay.StartGame "AB12") demo_relay)) /\
      Relay.recipient d = "s1") /\
  snd (Relay.on "s3" (Relay.JoinGame "AB12" (Some "carol")) demo_relay) = [] /\
  Relay.has_joined
    (fst (Relay.on "s3" (Relay.JoinGame "AB12" (Some "carol")) demo_relay))
    "s3" "AB12" = true.
Proof.
  split; [reflexivity|]. split.
  - refine (proj1 (proj2 (relay_forwards_to_the_others
                            "s3" (Relay.StartGame "AB12") demo_relay))
                  "s1" "AB12" eq_refl _ _ _ eq_refl).
    + intros game player. discriminate.
    + left. reflexivity.
    + discriminate.
  - destruct (proj1 (proj2 (proj2 (proj2 (proj2 (proj2
                (relay_forwards_to_the_others
                   "s3" (Relay.JoinGame "AB12" (Some "carol"))
                   demo_relay))))))
                "AB12" (Some "carol") eq_refl) as (Hnone & _ & Hin).
    split; [exact Hnone | exact Hin].
Defined.

Lemma relay_leave_witness :
  Relay.in_room demo_relay "AB12" "s1" = true /\
  forall d,
    In d (snd (Relay.on "s2" (Relay.PassTurn "AB12" (Some "bob"))
                        (fst (Relay.on "s1" (Relay.LeaveRoom "AB12" None)
                                       demo_relay)))) ->
    Relay.recipient d <> "s1".
Proof.
  split; [reflexivity|].
  intros d.
  refine (proj1 (proj2 (relay_leave "s1" "AB12" None demo_relay))
                _ "s2" (Relay.PassTurn "AB12" (Some "bob")) d eq_refl).
  discriminate.
Defined.

(** ** [startGame] and the other rooms *)

Lemma rooms_of_update_status_same s code db :
  rooms_of code (update_status s code db)
  = map (fun r => Rooms.mk (Rooms.code r) s (Rooms.turn_player_id r))
        (rooms_of code db).
Proof.
  unfold rooms_of, update_status. simpl.
  induction (rooms db) as [|r rs IH]; simpl; [reflexivity|].
  destruct (String.eqb (Rooms.code r) code) eqn:Hr; simpl; rewrite Hr.
  - simpl. f_equal. exact IH.
  - exact IH.
Qed.

Lemma rooms_of_update_status_other s code code' db :
  code' <> code ->
  rooms_of code' (update_status s code db) = rooms_of code' db.
Proof.
  intros Hne. unfold rooms_of, update_status. simpl.
  induction (rooms db) as [|r rs IH]; simpl; [reflexivity|].
  destruct (String.eqb_spec (Rooms.code r) code) as [Hr|Hr]; simpl.
  - destruct (String.eqb_spec code code'); [congruence|].
    destruct (String.eqb_spec (Rooms.code r) code'); [congruence|]. exact IH.
  - destruct (String.eqb (Rooms.code r) code'); [f_equal|]; exact IH.
Qed.

(** X20: startGame asks for nothing but a valid token and writes to one
    room.  Whoever the authenticated caller is and however many members
    the room has, the answer is "Game started ..." and getRoom then
    shows the room, when it exists, with status in_progress and the turn
    holder it had.  The rooms with other codes keep their status, their
    members keep their in_game flag, their decks keep their rows, and no
    hand or table row is written. *)
Theorem startGame_touches_one_room decode ranks suits a code db u :
  authenticate decode a = Caller u ->
  let out := startGame decode ranks suits a code db in
  fst out = send ("Game started for room with CODE: " ++ code) /\
  (forall r0 rs,
      rooms_of code db = r0 :: rs ->
      getRoom code (snd out)
      = reply (JsonRoom
                 (Some (Rooms.mk code in_progress (Rooms.turn_player_id r0)))))
  /\
  (forall code', code' <> code ->
      rooms_of code' (snd out) = rooms_of code' db /\
      players_of code' (snd out) = players_of code' db /\
      deck_of code' (snd out) = deck_of code' db) /\
  hand_cards (snd out) = hand_cards db /\
  table_cards (snd out) = table_cards db.
Proof.
  intros Hauth out.
  destruct (startGame_caller decode ranks suits a code db u Hauth)
    as (Hresp & Hrooms & Hplayers & Hdeck & Hhand & Htable).
  fold out in Hresp, Hrooms, Hplayers, Hdeck, Hhand, Htable.
  split; [exact Hresp|].
  assert (Hrooms_of : forall code',
             rooms_of code' (snd out)
             = rooms_of code' (update_status in_progress code db)).
  { intros code'. unfold rooms_of. rewrite Hrooms. reflexivity. }
  split.
  { intros r0 rs Hr. unfold getRoom.
    rewrite Hrooms_of, rooms_of_update_status_same, Hr. simpl.
    assert (Hcode : Rooms.code r0 = code).
    { assert (Hin : In r0 (rooms_of code db)) by (rewrite Hr; left; reflexivity).
      unfold rooms_of in Hin. apply filter_In in Hin.
      apply String.eqb_eq. tauto. }
    rewrite Hcode. reflexivity. }
  split; [|split; assumption].
  intros code' Hne. split; [|split].
  - rewrite Hrooms_of. apply rooms_of_update_status_other, Hne.
  - unfold players_of. rewrite Hplayers.
    generalize (players db). intros ps.
    induction ps as [|p ps IH]; simpl; [reflexivity|].
    destruct (String.eqb_spec (Players.room_code p) code) as [Hp|Hp]; simpl.
    + destruct (String.eqb_spec (Players.room_code p) code'); [congruence|].
      exact IH.
    + destruct (String.eqb (Players.room_code p) code'); [f_equal|]; exact IH.
  - unfold deck_of. rewrite Hdeck, filter_app.
    assert (Hnone : filter (fun d => String.eqb (Deck.room_code d) code')
                           (deck_rows code (next_deck_id db)
                                      (generateDeck ranks suits)) = []).
    { generalize (next_deck_id db). generalize (generateDeck ranks suits).
      intros cards. induction cards as [|c cards IH]; intros k; simpl;
        [reflexivity|].
      destruct (String.eqb_spec code code'); [congruence|]. apply IH. }
    rewrite Hnone, app_nil_r. reflexivity.
Qed.

Lemma startGame_touches_one_room_witness :
  authenticate demo_decode dave = Caller 4%Z /\
  getPlayerInRoom demo_decode dave "AB12" three_players
  = reply (JsonBool false) /\
  members "AB12" three_players = [1; 2; 3]%Z /\
  fst (startGame demo_decode demo_ranks demo_suits dave "AB12" three_players)
  = send "Game started for room with CODE: AB12".
Proof.
  split; [reflexivity|]. split; [reflexivity|]. split; [reflexivity|].
  exact (proj1 (startGame_touches_one_room demo_decode demo_ranks demo_suits
                  dave "AB12" three_players 4%Z eq_refl)).
Defined.
